(** * ants client: address resolution, session pooling and call dispatch

    A shallow embedding of the client side of package [ants]: the client
    configuration and its defaulting pass, the [Linker]
    interface with its static implementation, the per-address session
    pool and the three dispatch methods [Pull], [AsyncPull] and [Push]. *)

From Stdlib Require Import ZArith Lia List Bool Ascii String.
From stdpp Require Import base option gmap strings list fin_maps.

Local Open Scope string_scope.
Local Open Scope Z_scope.

(** ** Go values used by the package *)

(** [time.Duration] is a count of nanoseconds. *)
Definition Duration : Type := Z.

Definition Nanosecond : Duration := 1.
Definition Microsecond : Duration := 1000 * Nanosecond.
Definition Millisecond : Duration := 1000 * Microsecond.
Definition Second : Duration := 1000 * Millisecond.
Definition Minute : Duration := 60 * Second.

(** [tp.Rerror]: the structured remote error of teleport. A [*tp.Rerror]
    is an [option Rerror], [None] being the nil pointer. *)
Record Rerror : Type := mkRerror {
  Code : Z;
  Message : string;
  Detail : string
}.

(** A Go [error] value, as returned by [check] and by the TLS loader. *)
Record error : Type := mkError { error_text : string }.

(** ** strings.Index and slicing *)

(** [strings.Index(s, substr)]: the byte index of the first instance of
    [substr] in [s], or [-1] when there is none. [Index_from] carries the
    index of the current suffix. *)
Fixpoint Index_from (s substr : string) (i : Z) : Z :=
  if String.prefix substr s then i
  else match s with
       | EmptyString => -1
       | String _ s' => Index_from s' substr (i + 1)
       end.

Definition Index (s substr : string) : Z := Index_from s substr 0.

(** The slice expression [s[:hi]]. Go panics when [hi] is not within
    [0 .. len(s)]; that case is [None]. *)
Definition slice_to (s : string) (hi : Z) : option string :=
  if (0 <=? hi) && (hi <=? Z.of_nat (String.length s))
  then Some (String.substring 0 (Z.to_nat hi) s)
  else None.

(** ** CliConfig *)

Record CliConfig : Type := mkCliConfig {
  TlsCertFile : string;
  TlsKeyFile : string;
  DefaultReadTimeout : Duration;
  DefaultWriteTimeout : Duration;
  DefaultDialTimeout : Duration;
  RedialTimes : Z;
  SlowCometDuration : Duration;
  DefaultBodyCodec : string;
  PrintBody : bool;
  CountTime : bool;
  Network : string;
  Heartbeat : Duration;
  SessMaxQuota : Z;
  SessMaxIdleDuration : Duration
}.

Definition set_SessMaxQuota (c : CliConfig) (q : Z) : CliConfig :=
  {| TlsCertFile := TlsCertFile c; TlsKeyFile := TlsKeyFile c;
     DefaultReadTimeout := DefaultReadTimeout c;
     DefaultWriteTimeout := DefaultWriteTimeout c;
     DefaultDialTimeout := DefaultDialTimeout c;
     RedialTimes := RedialTimes c;
     SlowCometDuration := SlowCometDuration c;
     DefaultBodyCodec := DefaultBodyCodec c;
     PrintBody := PrintBody c; CountTime := CountTime c;
     Network := Network c; Heartbeat := Heartbeat c;
     SessMaxQuota := q;
     SessMaxIdleDuration := SessMaxIdleDuration c |}.

Definition set_SessMaxIdleDuration (c : CliConfig) (d : Duration) : CliConfig :=
  {| TlsCertFile := TlsCertFile c; TlsKeyFile := TlsKeyFile c;
     DefaultReadTimeout := DefaultReadTimeout c;
     DefaultWriteTimeout := DefaultWriteTimeout c;
     DefaultDialTimeout := DefaultDialTimeout c;
     RedialTimes := RedialTimes c;
     SlowCometDuration := SlowCometDuration c;
     DefaultBodyCodec := DefaultBodyCodec c;
     PrintBody := PrintBody c; CountTime := CountTime c;
     Network := Network c; Heartbeat := Heartbeat c;
     SessMaxQuota := SessMaxQuota c;
     SessMaxIdleDuration := d |}.

(** [func (c *CliConfig) check() error]: the receiver is updated in place,
    so the embedding returns the updated configuration next to the error. *)
Definition check (c : CliConfig) : CliConfig * option error :=
  let c1 := if SessMaxQuota c <=? 0 then set_SessMaxQuota c 100 else c in
  let c2 := if SessMaxIdleDuration c1 <=? 0
            then set_SessMaxIdleDuration c1 (Minute * 3) else c1 in
  (c2, None).

(** [func (c *CliConfig) Reload(bind cfgo.BindFunc) error]: [bind] syncs
    the configuration with its file and may fail; [check] runs after it. *)
Definition Reload (c : CliConfig) (bind : CliConfig -> CliConfig * option error)
    : CliConfig * option error :=
  let '(c1, err) := bind c in
  match err with
  | Some e => (c1, Some e)
  | None => check c1
  end.

(** [tp.PeerConfig], as filled by [peerConfig]. *)
Record PeerConfig : Type := mkPeerConfig {
  pc_DefaultReadTimeout : Duration;
  pc_DefaultWriteTimeout : Duration;
  pc_DefaultDialTimeout : Duration;
  pc_RedialTimes : Z;
  pc_SlowCometDuration : Duration;
  pc_DefaultBodyCodec : string;
  pc_PrintBody : bool;
  pc_CountTime : bool;
  pc_Network : string
}.

Definition peerConfig (c : CliConfig) : PeerConfig :=
  {| pc_DefaultReadTimeout := DefaultReadTimeout c;
     pc_DefaultWriteTimeout := DefaultWriteTimeout c;
     pc_DefaultDialTimeout := DefaultDialTimeout c;
     pc_RedialTimes := RedialTimes c;
     pc_SlowCometDuration := SlowCometDuration c;
     pc_DefaultBodyCodec := DefaultBodyCodec c;
     pc_PrintBody := PrintBody c;
     pc_CountTime := CountTime c;
     pc_Network := Network c |}.

(** ** Linker *)

(** [type Linker interface { Select(uriPath string) (string, *tp.Rerror) }].
    An implementation is a carrier type with its [Select] method. *)
Class Linker (T : Type) : Type :=
  Select : T -> string -> string * option Rerror.

(** A value of interface type [Linker]: the nil interface, or a dynamic
    type together with a value of it. *)
Inductive LinkerValue : Type :=
| nilLinker : LinkerValue
| linkerOf (T : Type) (L : Linker T) (x : T) : LinkerValue.

Arguments linkerOf {T L} x.

Record staticLinker : Type := mkStaticLinker { srvAddr : string }.

#[export] Instance staticLinker_Select : Linker staticLinker :=
  fun d _ => (srvAddr d, None).

Definition NewStaticLinker (srvAddr : string) : LinkerValue :=
  linkerOf {| srvAddr := srvAddr |}.

(** ** Ways a call can end *)

(** [tp.Fatalf] ends the process; [NewClient] has two calls of it. *)
Inductive FatalSite : Type := FatalCheck | FatalTls.

Inductive Startup (A : Type) : Type :=
| Started (a : A)
| Fatal (site : FatalSite) (err : error).

Arguments Started {A} a.
Arguments Fatal {A} site err.

(** How a call ends: it returns, it panics, or the calling goroutine is
    left blocked. Each carries the state at that point. *)
Inductive Outcome (S A : Type) : Type :=
| Ret (a : A) (s : S)
| Panic (s : S)
| Blocked (s : S).

Arguments Ret {S A} a s.
Arguments Panic {S A} s.
Arguments Blocked {S A} s.

(** ** External collaborators

    The transport endpoint, the heartbeat plugin, the framing strategy and
    the payloads are other packages' types: the development is parametric
    in them. *)
Class Transport : Type := {
  Args : Type;              (* the [args interface{}] of a call *)
  Reply : Type;             (* the [reply interface{}] of a call *)
  PacketSetting : Type;     (* [socket.PacketSetting] *)
  Plugin : Type;            (* [tp.Plugin] *)
  ProtoFunc : Type;         (* [socket.ProtoFunc] *)
  Peer : Type;              (* [*tp.Peer] *)
  NewPing : Duration -> Plugin;
  NewPeer : PeerConfig -> list Plugin -> Peer;
  SetTlsConfigFromFile : Peer -> string -> string -> Peer * option error;
  DefaultProtoFunc : ProtoFunc
}.

Section WithTransport.
Context {TR : Transport}.

(** Modelled from the spec: the Session constructor
    [NewSession(endpoint, address, poolCapacity, idleDuration) -> Session]
    is [cliSession.New] of package sundry-cliSession, outside this
    repository. A [*cliSession.CliSession] is a handle: [sess_id] is its
    identity (two constructions give two handles), the other fields record
    the arguments it was constructed with. *)
Record CliSession : Type := mkCliSession {
  sess_id : nat;
  sess_peer : Peer;
  sess_addr : string;
  sess_maxQuota : Z;
  sess_maxIdleDuration : Duration
}.

(** ** Client *)

Record Client : Type := mkClient {
  peer : Peer;
  linker : LinkerValue;
  protoFunc : ProtoFunc;
  cliSessPool : gmap string CliSession;
  sessMaxQuota : Z;
  sessMaxIdleDuration : Duration
}.

Definition NewClient (cfg : CliConfig) (plugin : list Plugin) : Startup Client :=
  let '(cfg, err) := check cfg in
  match err with
  | Some e => Fatal FatalCheck e
  | None =>
    let plugin := if Heartbeat cfg >? 0
                  then (plugin ++ [NewPing (Heartbeat cfg)])%list else plugin in
    let peer0 := NewPeer (peerConfig cfg) plugin in
    let mk p := {| peer := p;
                   linker := nilLinker;
                   protoFunc := DefaultProtoFunc;
                   cliSessPool := ∅;
                   sessMaxQuota := SessMaxQuota cfg;
                   sessMaxIdleDuration := SessMaxIdleDuration cfg |} in
    if (0 <? Z.of_nat (String.length (TlsCertFile cfg)))
       && (0 <? Z.of_nat (String.length (TlsKeyFile cfg)))
    then
      let '(peer1, err) :=
        SetTlsConfigFromFile peer0 (TlsCertFile cfg) (TlsKeyFile cfg) in
      match err with
      | Some e => Fatal FatalTls e
      | None => Started (mk peer1)
      end
    else Started (mk peer0)
  end.

Definition SetProtoFunc (c : Client) (protoFunc : ProtoFunc) : Client :=
  {| peer := peer c; linker := linker c; protoFunc := protoFunc;
     cliSessPool := cliSessPool c; sessMaxQuota := sessMaxQuota c;
     sessMaxIdleDuration := sessMaxIdleDuration c |}.

Definition SetLinker (c : Client) (linker : LinkerValue) : Client :=
  {| peer := peer c; linker := linker; protoFunc := protoFunc c;
     cliSessPool := cliSessPool c; sessMaxQuota := sessMaxQuota c;
     sessMaxIdleDuration := sessMaxIdleDuration c |}.

(** [c.cliSessPool.Store(addr, sess)] *)
Definition pool_Store (addr : string) (s : CliSession) (c : Client) : Client :=
  {| peer := peer c; linker := linker c; protoFunc := protoFunc c;
     cliSessPool := <[addr := s]> (cliSessPool c);
     sessMaxQuota := sessMaxQuota c;
     sessMaxIdleDuration := sessMaxIdleDuration c |}.

(** ** Pull commands and the completion channel *)

(** What the sessions do on the wire is theirs: [Net] is the state behind
    them, [SessPullCmd] the commands they hand back. *)
Class Sessions : Type := {
  Net : Type;
  SessPullCmd : Type;
  SessPullCmd_Rerror : SessPullCmd -> option Rerror
}.

Context {SS : Sessions}.

(** Modelled from the spec: [tp.PullCmd] and the synthetic-failure-result
    constructor [cliSession.NewFakePullCmd] are outside this repository.
    [FakePullCmd] is the already failed Pull outcome that constructor
    builds, carrying the arguments it was given; [SessionPullCmd] is a
    command handed back by a session. *)
Inductive PullCmd : Type :=
| FakePullCmd (p : Peer) (uri : string) (args : Args) (reply : Reply)
              (rerr : Rerror) (setting : list PacketSetting)
| SessionPullCmd (cmd : SessPullCmd).

Definition NewFakePullCmd := FakePullCmd.

(** [PullCmd.Rerror()] *)
Definition PullCmd_Rerror (cmd : PullCmd) : option Rerror :=
  match cmd with
  | FakePullCmd _ _ _ _ rerr _ => Some rerr
  | SessionPullCmd c => SessPullCmd_Rerror c
  end.

(** A Go channel of [tp.PullCmd]: capacity, buffered values, number of
    goroutines parked in a receive, and whether it was closed. The nil
    channel is [None] at the use site. *)
Record Chan : Type := mkChan {
  ch_cap : nat;
  ch_buf : list PullCmd;
  ch_recvq : nat;
  ch_closed : bool
}.

Inductive SendResult : Type :=
| SendOk (ch : Chan)      (* the statement completed *)
| SendPanic               (* send on a closed channel *)
| SendBlock.              (* the sender is parked until a receiver comes *)

(** The send statement [done <- x], as the Go runtime runs it: a closed
    channel panics, a parked receiver takes the value at once, a free
    buffer slot stores it, and otherwise (also on the nil channel) the
    sending goroutine blocks. *)
Definition chansend (done : option Chan) (x : PullCmd) : SendResult :=
  match done with
  | None => SendBlock
  | Some ch =>
    if ch_closed ch then SendPanic
    else match ch_recvq ch with
         | S n => SendOk {| ch_cap := ch_cap ch; ch_buf := ch_buf ch;
                            ch_recvq := n; ch_closed := false |}
         | O =>
           if (length (ch_buf ch) <? ch_cap ch)%nat
           then SendOk {| ch_cap := ch_cap ch; ch_buf := (ch_buf ch ++ [x])%list;
                          ch_recvq := O; ch_closed := false |}
           else SendBlock
         end
  end.

(** ** State and effects *)

(** What a session does when called is the session package's business:
    each call is a transition on [Net]. *)
Class SessionOps : Type := {
  sess_Pull : CliSession -> string -> Args -> Reply -> list PacketSetting ->
              Net -> Outcome Net PullCmd;
  sess_AsyncPull : CliSession -> string -> Args -> Reply -> option Chan ->
                   list PacketSetting -> Net -> Outcome Net (option Chan);
  sess_Push : CliSession -> string -> Args -> list PacketSetting ->
              Net -> Outcome Net (option Rerror)
}.

Context {SO : SessionOps}.

(** The calls the client makes on its collaborators, in program order. *)
Inductive Event : Type :=
| EvSelect (uriPath : string)
| EvLoad (addr : string)
| EvNew (p : Peer) (addr : string) (maxQuota : Z) (maxIdle : Duration)
        (s : CliSession)
| EvStore (addr : string) (s : CliSession)
| EvSessPull (s : CliSession) (uri : string)
| EvSessAsyncPull (s : CliSession) (uri : string)
| EvSessPush (s : CliSession) (uri : string)
| EvSend (cmd : PullCmd).

Record State : Type := mkState {
  client : Client;       (* the [*Client] receiver *)
  net : Net;             (* the sessions' side of the world *)
  next_sess : nat;       (* next fresh session handle *)
  trace : list Event     (* calls made so far, oldest first *)
}.

Definition log (e : Event) (σ : State) : State :=
  {| client := client σ; net := net σ; next_sess := next_sess σ;
     trace := (trace σ ++ [e])%list |}.

Definition set_client (c : Client) (σ : State) : State :=
  {| client := c; net := net σ; next_sess := next_sess σ; trace := trace σ |}.

Definition set_net (n : Net) (σ : State) : State :=
  {| client := client σ; net := n; next_sess := next_sess σ;
     trace := trace σ |}.

Definition M (A : Type) : Type := State -> Outcome State A.

#[export] Instance M_ret : MRet M := fun A a σ => Ret a σ.

#[export] Instance M_bind : MBind M := fun A B f m σ =>
  match m σ with
  | Ret a σ' => f a σ'
  | Panic σ' => Panic σ'
  | Blocked σ' => Blocked σ'
  end.

Definition panic {A : Type} : M A := fun σ => Panic σ.
Definition get_client : M Client := fun σ => Ret (client σ) σ.

(** A call into a session: logged, then run on [Net]. *)
Definition call_session {A : Type} (e : Event) (f : Net -> Outcome Net A) : M A :=
  fun σ =>
    let σ := log e σ in
    match f (net σ) with
    | Ret a n => Ret a (set_net n σ)
    | Panic n => Panic (set_net n σ)
    | Blocked n => Blocked (set_net n σ)
    end.

(** ** getCliSession, statement by statement *)

(** Lines 162-164: cut the uri at the first ['?']. *)
Definition cut_query (uri : string) : option string :=
  let idx := Index uri "?" in
  if negb (idx =? -1) then slice_to uri idx else Some uri.

Definition do_cut_query (uri : string) : M string := fun σ =>
  match cut_query uri with
  | Some p => Ret p σ
  | None => Panic σ
  end.

(** Line 165: [c.linker.Select(uri)]; a method call on the nil interface
    panics. *)
Definition linker_Select (uri : string) : M (string * option Rerror) := fun σ =>
  match linker (client σ) with
  | nilLinker => Panic σ
  | linkerOf l => Ret (Select l uri) (log (EvSelect uri) σ)
  end.

(** Line 169: [c.cliSessPool.Load(addr)] *)
Definition do_Load (addr : string) : M (option CliSession) := fun σ =>
  Ret (cliSessPool (client σ) !! addr) (log (EvLoad addr) σ).

(** Lines 173-178: [cliSession.New(peer, addr, quota, idle)] *)
Definition cliSession_New (p : Peer) (addr : string) (maxQuota : Z)
    (maxIdle : Duration) : M CliSession := fun σ =>
  let s := {| sess_id := next_sess σ; sess_peer := p; sess_addr := addr;
              sess_maxQuota := maxQuota;
              sess_maxIdleDuration := maxIdle |} in
  Ret s {| client := client σ; net := net σ; next_sess := S (next_sess σ);
           trace := (trace σ ++ [EvNew p addr maxQuota maxIdle s])%list |}.

(** Line 179: [c.cliSessPool.Store(addr, cliSess)] *)
Definition do_Store (addr : string) (s : CliSession) : M unit := fun σ =>
  Ret tt (log (EvStore addr s) (set_client (pool_Store addr s (client σ)) σ)).

Definition getCliSession (uri : string)
    : M (option CliSession * option Rerror) :=
  uri ← do_cut_query uri;
  '(addr, rerr) ← linker_Select uri;
  match rerr with
  | Some e => mret (None, Some e)
  | None =>
    _cliSess ← do_Load addr;
    match _cliSess with
    | Some s => mret (Some s, None)
    | None =>
      c ← get_client;
      cliSess ← cliSession_New (peer c) addr (sessMaxQuota c)
                               (sessMaxIdleDuration c);
      _ ← do_Store addr cliSess;
      mret (Some cliSess, None)
    end
  end.

(** ** The dispatch methods *)

Definition Pull (uri : string) (args : Args) (reply : Reply)
    (setting : list PacketSetting) : M PullCmd :=
  '(cliSess, rerr) ← getCliSession uri;
  match rerr with
  | Some e =>
    c ← get_client;
    mret (NewFakePullCmd (peer c) uri args reply e setting)
  | None =>
    match cliSess with
    | Some s => call_session (EvSessPull s uri)
                             (sess_Pull s uri args reply setting)
    | None => panic
    end
  end.

(** [done <- cmd] *)
Definition do_send (done : option Chan) (cmd : PullCmd) : M (option Chan) :=
  fun σ =>
    match chansend done cmd with
    | SendOk ch => Ret (Some ch) (log (EvSend cmd) σ)
    | SendPanic => Panic σ
    | SendBlock => Blocked σ
    end.

(** [AsyncPull] returns nothing; the value carried here is the channel
    [done] as the call leaves it. *)
Definition AsyncPull (uri : string) (args : Args) (reply : Reply)
    (done : option Chan) (setting : list PacketSetting) : M (option Chan) :=
  '(cliSess, rerr) ← getCliSession uri;
  match rerr with
  | Some e =>
    c ← get_client;
    do_send done (NewFakePullCmd (peer c) uri args reply e setting)
  | None =>
    match cliSess with
    | Some s => call_session (EvSessAsyncPull s uri)
                             (sess_AsyncPull s uri args reply done setting)
    | None => panic
    end
  end.

Definition Push (uri : string) (args : Args) (setting : list PacketSetting)
    : M (option Rerror) :=
  '(cliSess, rerr) ← getCliSession uri;
  match rerr with
  | Some e => mret (Some e)
  | None =>
    match cliSess with
    | Some s => call_session (EvSessPush s uri) (sess_Push s uri args setting)
    | None => panic
    end
  end.

(** ** Concurrent callers

    [goutil.AtomicMap] makes each [Load] and each [Store] atomic, and
    nothing more: between two statements of [getCliSession] other
    goroutines may run. A goroutine inside [getCliSession] is at one of the
    following points; [step] runs it up to the next one. *)
Inductive Frame : Type :=
| AtEntry (uri : string)                        (* line 162 *)
| AtLoad (addr : string)                        (* line 169 *)
| AtNew (addr : string)                         (* line 173 *)
| AtStore (addr : string) (cliSess : CliSession) (* line 179 *)
| Returned (cliSess : option CliSession) (rerr : option Rerror)
| Panicked.

Definition step (f : Frame) (σ : State) : Frame * State :=
  match f with
  | AtEntry uri =>
    match (uri ← do_cut_query uri; linker_Select uri) σ with
    | Ret (_, Some e) σ' => (Returned None (Some e), σ')
    | Ret (addr, None) σ' => (AtLoad addr, σ')
    | Panic σ' => (Panicked, σ')
    | Blocked σ' => (f, σ')
    end
  | AtLoad addr =>
    match do_Load addr σ with
    | Ret (Some s) σ' => (Returned (Some s) None, σ')
    | Ret None σ' => (AtNew addr, σ')
    | Panic σ' => (Panicked, σ')
    | Blocked σ' => (f, σ')
    end
  | AtNew addr =>
    match (c ← get_client;
           cliSession_New (peer c) addr (sessMaxQuota c)
                          (sessMaxIdleDuration c)) σ with
    | Ret s σ' => (AtStore addr s, σ')
    | Panic σ' => (Panicked, σ')
    | Blocked σ' => (f, σ')
    end
  | AtStore addr s =>
    match do_Store addr s σ with
    | Ret _ σ' => (Returned (Some s) None, σ')
    | Panic σ' => (Panicked, σ')
    | Blocked σ' => (f, σ')
    end
  | Returned _ _ | Panicked => (f, σ)
  end.

(** One goroutine alone, [n] steps. *)
Fixpoint steps (n : nat) (f : Frame) (σ : State) : Frame * State :=
  match n with
  | O => (f, σ)
  | S n' => let '(f', σ') := step f σ in steps n' f' σ'
  end.

(** How a finished frame reads as the outcome of a call. *)
Definition outcome_of (r : Frame * State)
    : option (Outcome State (option CliSession * option Rerror)) :=
  match r with
  | (Returned s e, σ) => Some (Ret (s, e) σ)
  | (Panicked, σ) => Some (Panic σ)
  | _ => None
  end.

(** Several goroutines: the schedule names, step after step, the
    goroutine that runs next. *)
Fixpoint run (sched : list nat) (ts : list Frame) (σ : State)
    : list Frame * State :=
  match sched with
  | [] => (ts, σ)
  | i :: sched' =>
    match ts !! i with
    | Some f => let '(f', σ') := step f σ in run sched' (<[i := f']> ts) σ'
    | None => run sched' ts σ
    end
  end.

(** ** Observations on outcomes and traces *)

Definition final {A : Type} (o : Outcome State A) : State :=
  match o with
  | Ret _ σ | Panic σ | Blocked σ => σ
  end.

Definition returned {A : Type} (o : Outcome State A) : option A :=
  match o with
  | Ret a _ => Some a
  | _ => None
  end.

(** The paths [Select] was called with. *)
Definition selected (tr : list Event) : list string :=
  omap (fun e => match e with EvSelect p => Some p | _ => None end) tr.

(** The sessions constructed. *)
Definition created (tr : list Event) : list CliSession :=
  omap (fun e => match e with EvNew _ _ _ _ s => Some s | _ => None end) tr.

(** The commands sent on a completion channel. *)
Definition sent (tr : list Event) : list PullCmd :=
  omap (fun e => match e with EvSend c => Some c | _ => None end) tr.

(** The sessions a call was delegated to. *)
Definition touched (tr : list Event) : list CliSession :=
  omap (fun e => match e with
                 | EvSessPull s _ | EvSessAsyncPull s _ | EvSessPush s _ =>
                   Some s
                 | _ => None
                 end) tr.

(** What a dispatch call may do to the client: every field but the pool
    stays, and the pool stays or gains one entry at a fresh address. *)
Definition client_frame (c c' : Client) : Prop :=
  peer c' = peer c /\ linker c' = linker c /\ protoFunc c' = protoFunc c /\
  sessMaxQuota c' = sessMaxQuota c /\
  sessMaxIdleDuration c' = sessMaxIdleDuration c /\
  (cliSessPool c' = cliSessPool c \/
   exists addr s, cliSessPool c !! addr = None /\
                  cliSessPool c' = <[addr := s]> (cliSessPool c)).

(** A call that neither constructs a session nor calls into one, and
    leaves the client, pool included, as it was. *)
Definition no_session_effect (σ σ' : State) : Prop :=
  client σ' = client σ /\ net σ' = net σ /\ next_sess σ' = next_sess σ /\
  created (trace σ') = created (trace σ) /\
  touched (trace σ') = touched (trace σ).

(** The session [getCliSession] constructs in state [σ] for [addr]. *)
Definition fresh_session (σ : State) (addr : string) : CliSession :=
  {| sess_id := next_sess σ; sess_peer := peer (client σ); sess_addr := addr;
     sess_maxQuota := sessMaxQuota (client σ);
     sess_maxIdleDuration := sessMaxIdleDuration (client σ) |}.

(** The four ways [getCliSession] can go. *)
Inductive gcs_case (uri : string) (σ : State)
    : Outcome State (option CliSession * option Rerror) -> Prop :=
| gcs_nil :
    linker (client σ) = nilLinker ->
    gcs_case uri σ (Panic σ)
| gcs_error p T (L : Linker T) (l : T) addr e :
    linker (client σ) = linkerOf l ->
    cut_query uri = Some p ->
    Select l p = (addr, Some e) ->
    gcs_case uri σ (Ret (None, Some e) (log (EvSelect p) σ))
| gcs_hit p T (L : Linker T) (l : T) addr s :
    linker (client σ) = linkerOf l ->
    cut_query uri = Some p ->
    Select l p = (addr, None) ->
    cliSessPool (client σ) !! addr = Some s ->
    gcs_case uri σ
      (Ret (Some s, None) (log (EvLoad addr) (log (EvSelect p) σ)))
| gcs_miss p T (L : Linker T) (l : T) addr :
    linker (client σ) = linkerOf l ->
    cut_query uri = Some p ->
    Select l p = (addr, None) ->
    cliSessPool (client σ) !! addr = None ->
    gcs_case uri σ
      (Ret (Some (fresh_session σ addr), None)
         {| client := pool_Store addr (fresh_session σ addr) (client σ);
            net := net σ;
            next_sess := S (next_sess σ);
            trace := (trace σ ++
                      [EvSelect p; EvLoad addr;
                       EvNew (peer (client σ)) addr (sessMaxQuota (client σ))
                             (sessMaxIdleDuration (client σ))
                             (fresh_session σ addr);
                       EvStore addr (fresh_session σ addr)])%list |}).

End WithTransport.

(** [uri] is [p], or [p] followed by ['?'] and a rest; [p] has no ['?']. *)
Definition path_portion (uri p : string) : Prop :=
  ~ In "?"%char (list_ascii_of_string p) /\
  (uri = p \/ exists rest, uri = (p ++ String "?"%char rest)%string).

(** ** Test doubles *)

(** A table-driven resolver: a path listed in [routes] resolves to its
    address, any other path fails with [NoRoute]. *)
Definition NoRoute : Rerror :=
  {| Code := 404; Message := "Not Found"; Detail := "no route" |}.

Record routeLinker : Type := mkRouteLinker { routes : list (string * string) }.

Fixpoint route_lookup (rs : list (string * string)) (p : string) : option string :=
  match rs with
  | [] => None
  | (q, a) :: rs' => if String.eqb q p then Some a else route_lookup rs' p
  end.

#[export] Instance routeLinker_Select : Linker routeLinker :=
  fun l p => match route_lookup (routes l) p with
             | Some a => (a, None)
             | None => (""%string, Some NoRoute)
             end.

(** A transport whose peer records how it was built; loading TLS material
    fails for the certificate file [missing.pem]. *)
#[export] Instance demoTransport : Transport := {|
  Args := string;
  Reply := string;
  PacketSetting := string;
  Plugin := Duration;
  ProtoFunc := string;
  Peer := PeerConfig * list Duration * bool;
  NewPing := fun d => d;
  NewPeer := fun pc pl => (pc, pl, false);
  SetTlsConfigFromFile := fun p cert key =>
    if String.eqb cert "missing.pem"
    then (p, Some (mkError "open missing.pem: no such file"))
    else ((p.1.1, p.1.2, true), None);
  DefaultProtoFunc := "default"%string
|}.

(** Sessions that count the calls made through them. *)
#[export] Instance demoSessions : Sessions := {|
  Net := nat;
  SessPullCmd := string;
  SessPullCmd_Rerror := fun _ => None
|}.

#[export] Instance demoSessionOps : SessionOps := {|
  sess_Pull := fun _ uri _ _ _ n => Ret (SessionPullCmd uri) (S n);
  sess_AsyncPull := fun _ _ _ _ done _ n => Ret done (S n);
  sess_Push := fun _ _ _ _ n => Ret None (S n)
|}.

Definition demo_cfg : CliConfig :=
  {| TlsCertFile := ""; TlsKeyFile := "";
     DefaultReadTimeout := 0; DefaultWriteTimeout := 0;
     DefaultDialTimeout := 0; RedialTimes := 0; SlowCometDuration := 0;
     DefaultBodyCodec := "json"; PrintBody := false; CountTime := false;
     Network := "tcp"; Heartbeat := 0;
     SessMaxQuota := 0; SessMaxIdleDuration := -5 |}.

(** The client [NewClient demo_cfg []] builds. *)
Definition demo_client : Client :=
  {| peer := NewPeer (peerConfig (check demo_cfg).1) [];
     linker := nilLinker;
     protoFunc := DefaultProtoFunc;
     cliSessPool := ∅;
     sessMaxQuota := 100;
     sessMaxIdleDuration := 180000000000 |}.

Definition demo_state (l : LinkerValue) : State :=
  {| client := SetLinker demo_client l; net := 0%nat; next_sess := 0%nat;
     trace := [] |}.

(** An unbuffered channel nobody is receiving from, and one with a free
    slot. *)
Definition unbuffered_chan : Chan :=
  {| ch_cap := 0; ch_buf := []; ch_recvq := 0; ch_closed := false |}.

Definition buffered_chan : Chan :=
  {| ch_cap := 1; ch_buf := []; ch_recvq := 0; ch_closed := false |}.

(** A configuration naming TLS files the loader cannot open, with a
    heartbeat. *)
Definition demo_tls_cfg : CliConfig :=
  {| TlsCertFile := "missing.pem"; TlsKeyFile := "key.pem";
     DefaultReadTimeout := 0; DefaultWriteTimeout := 0;
     DefaultDialTimeout := 0; RedialTimes := 0; SlowCometDuration := 0;
     DefaultBodyCodec := "json"; PrintBody := false; CountTime := false;
     Network := "tcp"; Heartbeat := 5 * Second;
     SessMaxQuota := 8; SessMaxIdleDuration := Minute |}.

(** The demo client after one call through the static linker: one session
    pooled for ["127.0.0.1:9090"]. *)
Definition demo_pooled_state : State :=
  final (getCliSession "/echo" (demo_state (NewStaticLinker "127.0.0.1:9090"))).

(** A [bind] that fails, and one that reads a zero quota from the file. *)
Definition bind_fails (c : CliConfig) : CliConfig * option error :=
  (c, Some (mkError "yaml: cannot read file")).

Definition bind_zero_quota (c : CliConfig) : CliConfig * option error :=
  (set_SessMaxQuota c 0, None).

(** ** Sequences of calls, and what the pool keeps *)

(** The value and the state an outcome carries, for any kind of state. *)
Definition value_of {S A : Type} (o : Outcome S A) : option A :=
  match o with
  | Ret a _ => Some a
  | _ => None
  end.

Definition state_of {S A : Type} (o : Outcome S A) : S :=
  match o with
  | Ret _ s | Panic s | Blocked s => s
  end.

Definition map_state {S S' A : Type} (f : S -> S') (o : Outcome S A)
    : Outcome S' A :=
  match o with
  | Ret a s => Ret a (f s)
  | Panic s => Panic (f s)
  | Blocked s => Blocked (f s)
  end.

Section Sequences.
Context {TR : Transport} {SS : Sessions}.

(** One caller resolving a list of uris, one call after the other; a call
    that panics does not stop the ones after it (each is its own call). *)
Fixpoint call_all (uris : list string) (σ : State)
    : list (option (option CliSession * option Rerror)) * State :=
  match uris with
  | [] => ([], σ)
  | u :: us =>
    let o := getCliSession u σ in
    let '(rs, σ') := call_all us (final o) in
    (returned o :: rs, σ')
  end.

(** A session as this client builds them for [addr], with a handle that
    has been given out. *)
Definition session_wf (σ : State) (addr : string) (s : CliSession) : Prop :=
  sess_addr s = addr /\
  sess_peer s = peer (client σ) /\
  sess_maxQuota s = sessMaxQuota (client σ) /\
  sess_maxIdleDuration s = sessMaxIdleDuration (client σ) /\
  (sess_id s < next_sess σ)%nat.

(** Every pooled session is stored under the address it was built for,
    and no two addresses share a handle. *)
Definition pool_wf (σ : State) : Prop :=
  (forall addr s, cliSessPool (client σ) !! addr = Some s ->
                  session_wf σ addr s) /\
  (forall a1 a2 s1 s2,
     cliSessPool (client σ) !! a1 = Some s1 ->
     cliSessPool (client σ) !! a2 = Some s2 ->
     sess_id s1 = sess_id s2 -> a1 = a2).

(** The sessions constructed so far have pairwise different handles, and
    each was built for its address from this client's peer and limits. *)
Definition handles_wf (σ : State) : Prop :=
  NoDup (map sess_id (created (trace σ))) /\
  (forall s, In s (created (trace σ)) -> session_wf σ (sess_addr s) s).

(** What a goroutine inside [getCliSession] holds is a session that was
    constructed, and the one it is about to store was built for the
    address it will store it under. *)
Definition frame_known (σ : State) (f : Frame) : Prop :=
  match f with
  | AtStore addr s => sess_addr s = addr /\ In s (created (trace σ))
  | Returned (Some s) _ => In s (created (trace σ))
  | _ => True
  end.

(** What holds of the pool and of the goroutines inside [getCliSession]
    at every point of every interleaving. *)
Definition race_inv (ts : list Frame) (σ : State) : Prop :=
  handles_wf σ /\
  (forall addr s, cliSessPool (client σ) !! addr = Some s ->
                  sess_addr s = addr /\ In s (created (trace σ))) /\
  Forall (frame_known σ) ts.

(** Whether a goroutine may still construct a session. *)
Definition may_create (f : Frame) : nat :=
  match f with
  | AtEntry _ | AtLoad _ | AtNew _ => 1
  | _ => 0
  end.

Definition budget (ts : list Frame) : nat :=
  foldr (fun f n => (may_create f + n)%nat) 0%nat ts.

(** The state with the framing strategy replaced, as [SetProtoFunc] does. *)
Definition with_protoFunc (pf : ProtoFunc) (σ : State) : State :=
  set_client (SetProtoFunc (client σ) pf) σ.

(** The state with the resolver replaced, as [SetLinker] does. *)
Definition with_linker (lk : LinkerValue) (σ : State) : State :=
  set_client (SetLinker (client σ) lk) σ.

End Sequences.

(** * Properties *)

(** ** strings.Index on a one-byte separator *)

Lemma prefix_one (c : ascii) (s : string) :
  String.prefix (String c "") s =
  match s with
  | EmptyString => false
  | String a _ => if ascii_dec c a then true else false
  end.
Proof.
  destruct s as [|a s]; simpl; [reflexivity|].
  destruct (ascii_dec c a); [|reflexivity]. now destruct s.
Qed.

Lemma Index_from_lower (c : ascii) (s : string) (i : Z) :
  0 <= i -> Index_from s (String c "") i = -1 \/ i <= Index_from s (String c "") i.
Proof.
  revert i. induction s as [|a s IH]; intros i Hi.
  - left. reflexivity.
  - cbn [Index_from]. rewrite prefix_one.
    destruct (ascii_dec c a); [right; lia|].
    destruct (IH (i + 1)) as [H|H]; [lia| now left | right; lia].
Qed.

Lemma Index_from_none (c : ascii) (s : string) (i : Z) :
  0 <= i ->
  Index_from s (String c "") i = -1 -> ~ In c (list_ascii_of_string s).
Proof.
  revert i. induction s as [|a s IH]; intros i Hi Hidx; [intros []|].
  cbn [Index_from] in Hidx. rewrite prefix_one in Hidx.
  destruct (ascii_dec c a) as [->|Hne]; [lia|].
  simpl. intros [Heq|Hin]; [congruence|].
  apply (IH (i + 1)); [lia|assumption|assumption].
Qed.

Lemma Index_from_found (c : ascii) (s : string) (i : Z) :
  0 <= i ->
  Index_from s (String c "") i <> -1 ->
  exists pre post,
    s = (pre ++ String c post)%string /\
    Index_from s (String c "") i = i + Z.of_nat (String.length pre) /\
    ~ In c (list_ascii_of_string pre).
Proof.
  revert i. induction s as [|a s IH]; intros i Hi Hidx.
  - now destruct Hidx.
  - cbn [Index_from] in *. rewrite prefix_one in *.
    destruct (ascii_dec c a) as [->|Hne].
    + exists ""%string, s. simpl. repeat split; [lia|tauto].
    + destruct (IH (i + 1)) as (pre & post & -> & Hr & Hnin); [lia|assumption|].
      exists (String a pre), post. rewrite Hr. simpl.
      repeat split; [lia|]. intros [Heq|Hin]; [congruence|tauto].
Qed.

Lemma substring_app_prefix (pre rest : string) :
  String.substring 0 (String.length pre) (pre ++ rest) = pre.
Proof.
  induction pre as [|a pre IH]; simpl.
  - now destruct rest.
  - now rewrite IH.
Qed.

Lemma length_string_app (a b : string) :
  String.length (a ++ b) = (String.length a + String.length b)%nat.
Proof. induction a as [|x a IH]; simpl; [reflexivity|now rewrite IH]. Qed.

(** Cutting the query never panics, and gives the path portion. *)
Lemma cut_query_path (uri : string) :
  exists p, cut_query uri = Some p /\ path_portion uri p.
Proof.
  unfold cut_query, Index.
  destruct (Z.eqb_spec (Index_from uri "?" 0) (-1)) as [Hnone|Hsome]; simpl.
  - exists uri. split; [reflexivity|]. split; [|now left].
    now apply (Index_from_none _ _ 0).
  - destruct (Index_from_found "?" uri 0) as (pre & post & -> & Hr & Hnin);
      [lia|assumption|].
    exists pre. rewrite Hr. unfold slice_to.
    rewrite length_string_app. simpl String.length.
    replace ((0 <=? 0 + Z.of_nat (String.length pre)) &&
             (0 + Z.of_nat (String.length pre) <=?
              Z.of_nat (String.length pre + S (String.length post))))
      with true by (symmetry; apply andb_true_iff; split; apply Z.leb_le; lia).
    replace (Z.to_nat (0 + Z.of_nat (String.length pre)))
      with (String.length pre) by lia.
    rewrite substring_app_prefix.
    split; [reflexivity|]. split; [assumption|]. right. now exists post.
Qed.

(** A uri without ['?'] is left as it is. *)
Lemma cut_query_plain (uri : string) :
  ~ In "?"%char (list_ascii_of_string uri) -> cut_query uri = Some uri.
Proof.
  intros Hnin. unfold cut_query, Index.
  destruct (Z.eqb_spec (Index_from uri "?" 0) (-1)) as [Hnone|Hsome];
    [reflexivity|].
  destruct (Index_from_found "?" uri 0) as (pre & post & Heq & _ & _);
    [lia|assumption|].
  exfalso. apply Hnin. rewrite Heq. clear.
  induction pre as [|a pre IH]; simpl; tauto.
Qed.

Section Facts.
Context {TR : Transport} {SS : Sessions} {SO : SessionOps}.

(** ** getCliSession in one piece *)

Lemma getCliSession_nil_linker (uri : string) (σ : State) :
  linker (client σ) = nilLinker -> getCliSession uri σ = Panic σ.
Proof.
  intros Hnil. destruct (cut_query_path uri) as (p & Hp & _).
  unfold getCliSession, mbind, M_bind, do_cut_query, linker_Select.
  now rewrite Hp, Hnil.
Qed.

Lemma getCliSession_select_error (uri p : string) (σ : State)
    (T : Type) (L : Linker T) (l : T) (addr : string) (e : Rerror) :
  linker (client σ) = linkerOf l ->
  cut_query uri = Some p ->
  Select l p = (addr, Some e) ->
  getCliSession uri σ = Ret (None, Some e) (log (EvSelect p) σ).
Proof.
  intros Hl Hp Hsel.
  unfold getCliSession, mbind, M_bind, do_cut_query, linker_Select.
  now rewrite Hp, Hl, Hsel.
Qed.

Lemma getCliSession_hit (uri p : string) (σ : State)
    (T : Type) (L : Linker T) (l : T) (addr : string) (s : CliSession) :
  linker (client σ) = linkerOf l ->
  cut_query uri = Some p ->
  Select l p = (addr, None) ->
  cliSessPool (client σ) !! addr = Some s ->
  getCliSession uri σ =
  Ret (Some s, None) (log (EvLoad addr) (log (EvSelect p) σ)).
Proof.
  intros Hl Hp Hsel Hpool.
  unfold getCliSession, mbind, M_bind, do_cut_query, linker_Select, do_Load.
  rewrite Hp, Hl, Hsel. simpl. now rewrite Hpool.
Qed.

Lemma getCliSession_miss (uri p : string) (σ : State)
    (T : Type) (L : Linker T) (l : T) (addr : string) :
  linker (client σ) = linkerOf l ->
  cut_query uri = Some p ->
  Select l p = (addr, None) ->
  cliSessPool (client σ) !! addr = None ->
  getCliSession uri σ =
  Ret (Some (fresh_session σ addr), None)
      {| client := pool_Store addr (fresh_session σ addr) (client σ);
         net := net σ;
         next_sess := S (next_sess σ);
         trace := (trace σ ++
                   [EvSelect p; EvLoad addr;
                    EvNew (peer (client σ)) addr (sessMaxQuota (client σ))
                          (sessMaxIdleDuration (client σ))
                          (fresh_session σ addr);
                    EvStore addr (fresh_session σ addr)])%list |}.
Proof.
  intros Hl Hp Hsel Hpool.
  unfold getCliSession, mbind, M_bind, do_cut_query, linker_Select, do_Load.
  rewrite Hp, Hl, Hsel. simpl. rewrite Hpool.
  unfold get_client, cliSession_New, do_Store, mret, M_ret, log, set_client.
  simpl. repeat rewrite <- app_assoc. reflexivity.
Qed.

Lemma getCliSession_case (uri : string) (σ : State) :
  gcs_case uri σ (getCliSession uri σ).
Proof.
  destruct (cut_query_path uri) as (p & Hp & _).
  destruct (linker (client σ)) as [|T L l] eqn:Hl.
  - rewrite getCliSession_nil_linker by assumption. now constructor.
  - destruct (Select l p) as [addr [e|]] eqn:Hsel.
    + erewrite getCliSession_select_error by eassumption.
      now apply (gcs_error _ _ p T L l addr e).
    + destruct (cliSessPool (client σ) !! addr) as [s|] eqn:Hpool.
      * erewrite getCliSession_hit by eassumption.
        now apply (gcs_hit _ _ p T L l addr s).
      * erewrite getCliSession_miss by eassumption.
        now apply (gcs_miss _ _ p T L l addr).
Qed.

(** The step machine, run by one goroutine alone, is [getCliSession]. *)
Lemma steps_getCliSession (uri : string) (σ : State) :
  exists n, outcome_of (steps n (AtEntry uri) σ) = Some (getCliSession uri σ).
Proof.
  destruct (getCliSession_case uri σ) as
    [Hl | p T L l addr e Hl Hp Hsel | p T L l addr s Hl Hp Hsel Hpool
        | p T L l addr Hl Hp Hsel Hpool].
  - exists 1%nat. destruct (cut_query_path uri) as (p & Hp & _).
    simpl. unfold mbind, M_bind, do_cut_query, linker_Select.
    now rewrite Hp, Hl.
  - exists 1%nat. simpl. unfold mbind, M_bind, do_cut_query, linker_Select.
    now rewrite Hp, Hl, Hsel.
  - exists 2%nat. simpl. unfold mbind, M_bind, do_cut_query, linker_Select.
    rewrite Hp, Hl, Hsel. simpl. now rewrite Hpool.
  - exists 4%nat. simpl. unfold mbind, M_bind, do_cut_query, linker_Select.
    rewrite Hp, Hl, Hsel. simpl. rewrite Hpool. simpl.
    unfold log, set_client. simpl. repeat rewrite <- app_assoc. reflexivity.
Qed.

(** ** The dispatch methods over the outcome of getCliSession *)

Lemma Pull_unfold uri args reply setting (σ : State) :
  Pull uri args reply setting σ =
  match getCliSession uri σ with
  | Ret (_, Some e) σ' =>
    Ret (NewFakePullCmd (peer (client σ')) uri args reply e setting) σ'
  | Ret (Some s, None) σ' =>
    call_session (EvSessPull s uri) (sess_Pull s uri args reply setting) σ'
  | Ret (None, None) σ' => Panic σ'
  | Panic σ' => Panic σ'
  | Blocked σ' => Blocked σ'
  end.
Proof.
  unfold Pull, mbind, M_bind.
  destruct (getCliSession uri σ) as [[[s|] [e|]] σ'|σ'|σ']; reflexivity.
Qed.

Lemma AsyncPull_unfold uri args reply done setting (σ : State) :
  AsyncPull uri args reply done setting σ =
  match getCliSession uri σ with
  | Ret (_, Some e) σ' =>
    do_send done (NewFakePullCmd (peer (client σ')) uri args reply e setting) σ'
  | Ret (Some s, None) σ' =>
    call_session (EvSessAsyncPull s uri)
                 (sess_AsyncPull s uri args reply done setting) σ'
  | Ret (None, None) σ' => Panic σ'
  | Panic σ' => Panic σ'
  | Blocked σ' => Blocked σ'
  end.
Proof.
  unfold AsyncPull, mbind, M_bind.
  destruct (getCliSession uri σ) as [[[s|] [e|]] σ'|σ'|σ']; reflexivity.
Qed.

Lemma Push_unfold uri args setting (σ : State) :
  Push uri args setting σ =
  match getCliSession uri σ with
  | Ret (_, Some e) σ' => Ret (Some e) σ'
  | Ret (Some s, None) σ' =>
    call_session (EvSessPush s uri) (sess_Push s uri args setting) σ'
  | Ret (None, None) σ' => Panic σ'
  | Panic σ' => Panic σ'
  | Blocked σ' => Blocked σ'
  end.
Proof.
  unfold Push, mbind, M_bind.
  destruct (getCliSession uri σ) as [[[s|] [e|]] σ'|σ'|σ']; reflexivity.
Qed.

(** A call into a session leaves the client, the handle counter and all
    earlier events alone, and logs itself. *)
Lemma call_session_final {A : Type} (e : Event) (f : Net -> Outcome Net A)
    (σ : State) :
  client (final (call_session e f σ)) = client σ /\
  next_sess (final (call_session e f σ)) = next_sess σ /\
  trace (final (call_session e f σ)) = (trace σ ++ [e])%list.
Proof.
  unfold call_session. simpl. destruct (f (net σ)); simpl; auto.
Qed.

(** A send touches nothing but the channel, and logs itself when it
    completes. *)
Lemma do_send_final (done : option Chan) (cmd : PullCmd) (σ : State) :
  client (final (do_send done cmd σ)) = client σ /\
  next_sess (final (do_send done cmd σ)) = next_sess σ /\
  net (final (do_send done cmd σ)) = net σ /\
  trace (final (do_send done cmd σ)) =
    (trace σ ++ match chansend done cmd with
                | SendOk _ => [EvSend cmd]
                | _ => []
                end)%list.
Proof.
  unfold do_send. destruct (chansend done cmd); simpl;
    rewrite ?app_nil_r; auto.
Qed.

(** When the send statement completes. *)
Lemma chansend_ok_iff (done : option Chan) (cmd : PullCmd) :
  (exists ch', chansend done cmd = SendOk ch') <->
  (exists ch, done = Some ch /\ ch_closed ch = false /\
              (0 < ch_recvq ch \/ length (ch_buf ch) < ch_cap ch)%nat).
Proof.
  unfold chansend. split.
  - intros [ch' H]. destruct done as [ch|]; [|discriminate].
    exists ch. split; [reflexivity|].
    destruct (ch_closed ch); [discriminate|]. split; [reflexivity|].
    destruct (ch_recvq ch); [|left; lia].
    destruct (Nat.ltb_spec (length (ch_buf ch)) (ch_cap ch));
      [right; assumption|discriminate].
  - intros (ch & -> & Hopen & Hroom). rewrite Hopen.
    destruct (ch_recvq ch); [|eexists; reflexivity].
    destruct Hroom as [Hr|Hr]; [lia|].
    apply Nat.ltb_lt in Hr. rewrite Hr. eexists; reflexivity.
Qed.

(** ** Reading traces *)

Lemma selected_app (a b : list Event) :
  selected (a ++ b) = (selected a ++ selected b)%list.
Proof. apply omap_app. Qed.

Lemma created_app (a b : list Event) :
  created (a ++ b) = (created a ++ created b)%list.
Proof. apply omap_app. Qed.

Lemma sent_app (a b : list Event) :
  sent (a ++ b) = (sent a ++ sent b)%list.
Proof. apply omap_app. Qed.

Lemma touched_app (a b : list Event) :
  touched (a ++ b) = (touched a ++ touched b)%list.
Proof. apply omap_app. Qed.

Lemma trace_log (e : Event) (σ : State) :
  trace (log e σ) = (trace σ ++ [e])%list.
Proof. reflexivity. Qed.

Ltac read_trace :=
  simpl;
  repeat first
    [ rewrite trace_log
    | rewrite selected_app | rewrite created_app
    | rewrite sent_app | rewrite touched_app
    | rewrite <- app_assoc ];
  simpl; rewrite ?app_nil_r.

(** C4: for every uri, [Select] is called with the path portion of the
    uri only: the uri cut before its first ['?'], and the uri itself when
    it has none. [getCliSession], and with it [Pull], [AsyncPull] and
    [Push], make exactly that one call of [Select];
    ["/svc/method?x=1"] resolves as ["/svc/method"]. *)
Theorem C4_select_gets_path_portion (uri : string) (args : Args)
    (reply : Reply) (done : option Chan) (setting : list PacketSetting)
    (σ : State) (T : Type) (L : Linker T) (l : T) :
  linker (client σ) = linkerOf l ->
  (exists p,
     cut_query uri = Some p /\
     path_portion uri p /\
     (~ In "?"%char (list_ascii_of_string uri) -> p = uri) /\
     selected (trace (final (getCliSession uri σ)))
       = (selected (trace σ) ++ [p])%list /\
     selected (trace (final (Pull uri args reply setting σ)))
       = (selected (trace σ) ++ [p])%list /\
     selected (trace (final (AsyncPull uri args reply done setting σ)))
       = (selected (trace σ) ++ [p])%list /\
     selected (trace (final (Push uri args setting σ)))
       = (selected (trace σ) ++ [p])%list) /\
  cut_query "/svc/method?x=1" = Some "/svc/method"%string.
Proof.
  intros Hl. split; [|reflexivity].
  destruct (cut_query_path uri) as (p & Hp & Hpath).
  exists p. split; [assumption|]. split; [assumption|].
  split.
  { intros Hplain. apply cut_query_plain in Hplain. congruence. }
  rewrite Pull_unfold, AsyncPull_unfold, Push_unfold.
  destruct (getCliSession_case uri σ) as
    [Hnil | p' T' L' l' addr e _ Hp' _ | p' T' L' l' addr s _ Hp' _ _
          | p' T' L' l' addr _ Hp' _ _];
    [congruence| | |];
    assert (p' = p) as -> by congruence; clear Hp'.
  - destruct (do_send_final done
                (NewFakePullCmd (peer (client (log (EvSelect p) σ))) uri args
                                reply e setting) (log (EvSelect p) σ))
      as (_ & _ & _ & ->).
    simpl final. read_trace.
    repeat split; try reflexivity.
    destruct (chansend _ _); simpl; now rewrite ?app_nil_r.
  - repeat match goal with
           | |- context [call_session ?e ?f ?s] =>
             let H := fresh in
             destruct (call_session_final e f s) as (_ & _ & H);
             rewrite H; clear H
           end.
    simpl final. read_trace. repeat split; reflexivity.
  - repeat match goal with
           | |- context [call_session ?e ?f ?s] =>
             let H := fresh in
             destruct (call_session_final e f s) as (_ & _ & H);
             rewrite H; clear H
           end.
    simpl final. read_trace. repeat split; reflexivity.
Qed.

(** ** Resolution failure *)

Lemma no_session_effect_select (p : string) (σ : State) :
  no_session_effect σ (log (EvSelect p) σ).
Proof.
  unfold no_session_effect. read_trace. repeat split; reflexivity.
Qed.

Lemma no_session_effect_send (p : string) (cmd : PullCmd) (σ : State) :
  no_session_effect σ (log (EvSend cmd) (log (EvSelect p) σ)).
Proof.
  unfold no_session_effect. read_trace. repeat split; reflexivity.
Qed.

(** C2, as the code has it: when [Select] fails on the path portion of
    the uri with error [e], [Pull] returns a fake command carrying [e],
    [Push] returns [e], and [AsyncPull] runs one send statement of the
    fake command on [done]. That send completes, delivering exactly one
    completion, when the channel is open and has a parked receiver or a
    free buffer slot; otherwise the caller is left blocked in it (or
    panics, on a closed channel) and nothing is delivered. In every case
    no session is constructed or called and the client keeps its pool. *)
Theorem C2_resolution_failure_short_circuit (uri p : string) (args : Args)
    (reply : Reply) (done : option Chan) (setting : list PacketSetting)
    (σ : State) (T : Type) (L : Linker T) (l : T) (addr : string)
    (e : Rerror) :
  linker (client σ) = linkerOf l ->
  cut_query uri = Some p ->
  Select l p = (addr, Some e) ->
  let fake := NewFakePullCmd (peer (client σ)) uri args reply e setting in
  let σ1 := log (EvSelect p) σ in
  (Pull uri args reply setting σ = Ret fake σ1 /\
   PullCmd_Rerror fake = Some e) /\
  Push uri args setting σ = Ret (Some e) σ1 /\
  AsyncPull uri args reply done setting σ =
    match chansend done fake with
    | SendOk ch => Ret (Some ch) (log (EvSend fake) σ1)
    | SendPanic => Panic σ1
    | SendBlock => Blocked σ1
    end /\
  ((exists ch, done = Some ch /\ ch_closed ch = false /\
               (0 < ch_recvq ch \/ length (ch_buf ch) < ch_cap ch)%nat) ->
   (exists ch', AsyncPull uri args reply done setting σ =
                Ret (Some ch') (log (EvSend fake) σ1)) /\
   sent (trace (final (AsyncPull uri args reply done setting σ)))
     = (sent (trace σ) ++ [fake])%list) /\
  no_session_effect σ (final (Pull uri args reply setting σ)) /\
  no_session_effect σ (final (Push uri args setting σ)) /\
  no_session_effect σ (final (AsyncPull uri args reply done setting σ)).
Proof.
  intros Hl Hp Hsel fake σ1.
  assert (Hg : getCliSession uri σ = Ret (None, Some e) σ1)
    by (eapply getCliSession_select_error; eassumption).
  assert (HP : Pull uri args reply setting σ = Ret fake σ1)
    by (rewrite Pull_unfold, Hg; reflexivity).
  assert (HU : Push uri args setting σ = Ret (Some e) σ1)
    by (rewrite Push_unfold, Hg; reflexivity).
  assert (HA : AsyncPull uri args reply done setting σ =
               match chansend done fake with
               | SendOk ch => Ret (Some ch) (log (EvSend fake) σ1)
               | SendPanic => Panic σ1
               | SendBlock => Blocked σ1
               end)
    by (rewrite AsyncPull_unfold, Hg; reflexivity).
  split; [split; [exact HP|reflexivity]|].
  split; [exact HU|]. split; [exact HA|].
  split; [|split; [|split]].
  - intros Hroom. apply (chansend_ok_iff done fake) in Hroom.
    destruct Hroom as [ch' Hsend]. rewrite HA, Hsend. split.
    + now exists ch'.
    + subst σ1. read_trace. reflexivity.
  - rewrite HP. apply no_session_effect_select.
  - rewrite HU. apply no_session_effect_select.
  - rewrite HA. destruct (chansend done fake); simpl;
      [apply no_session_effect_send | apply no_session_effect_select ..].
Qed.

(** C8: when resolution fails for a uri with a ['?'], [Select] was called
    with the cut path [p], which differs from the uri, while the fake
    command [Pull] returns, and the one [AsyncPull] sends on [done], is
    built with the uri as the caller gave it. *)
Theorem C8_fake_result_keeps_whole_uri (uri p : string) (args : Args)
    (reply : Reply) (done : option Chan) (setting : list PacketSetting)
    (σ : State) (T : Type) (L : Linker T) (l : T) (addr : string)
    (e : Rerror) :
  In "?"%char (list_ascii_of_string uri) ->
  linker (client σ) = linkerOf l ->
  cut_query uri = Some p ->
  Select l p = (addr, Some e) ->
  let fake := FakePullCmd (peer (client σ)) uri args reply e setting in
  p <> uri /\
  selected (trace (final (Pull uri args reply setting σ)))
    = (selected (trace σ) ++ [p])%list /\
  returned (Pull uri args reply setting σ) = Some fake /\
  (forall ch, chansend done fake = SendOk ch ->
     AsyncPull uri args reply done setting σ
       = Ret (Some ch) (log (EvSend fake) (log (EvSelect p) σ)) /\
     sent (trace (final (AsyncPull uri args reply done setting σ)))
       = (sent (trace σ) ++ [fake])%list) /\
  (forall cmd, In cmd (sent (trace (final
                 (AsyncPull uri args reply done setting σ)))) ->
     In cmd (sent (trace σ)) \/ cmd = fake).
Proof.
  intros Hq Hl Hp Hsel fake.
  assert (Hg : getCliSession uri σ = Ret (None, Some e) (log (EvSelect p) σ))
    by (eapply getCliSession_select_error; eassumption).
  split.
  { destruct (cut_query_path uri) as (p' & Hp' & Hnin & _).
    assert (p' = p) as -> by congruence. intros ->. contradiction. }
  rewrite Pull_unfold, AsyncPull_unfold, Hg. simpl.
  fold fake. unfold do_send.
  split; [read_trace; reflexivity|]. split; [reflexivity|]. split.
  - intros ch Hsend. unfold NewFakePullCmd. fold fake. rewrite Hsend.
    split; [reflexivity|]. read_trace. reflexivity.
  - intros cmd. unfold NewFakePullCmd. fold fake.
    destruct (chansend done fake); read_trace; rewrite ?in_app_iff; simpl;
      intuition auto.
Qed.

(** ** No resolver, or one that always fails *)

(** C3, as the code has it: with a resolver that fails with the same
    error [e] on every path, [Push "/x"] returns [e] and the pool is as
    before, so an empty pool stays empty. With no resolver configured
    (the nil [Linker] that [NewClient] leaves), [Push "/x"] returns no
    error: the call of [Select] on the nil interface panics, the client
    untouched. *)
Theorem C3_push_without_route (args : Args) (setting : list PacketSetting)
    (σ : State) :
  (forall T (L : Linker T) (l : T) (e : Rerror),
     linker (client σ) = linkerOf l ->
     (forall path, (Select l path).2 = Some e) ->
     returned (Push "/x" args setting σ) = Some (Some e) /\
     cliSessPool (client (final (Push "/x" args setting σ)))
       = cliSessPool (client σ) /\
     no_session_effect σ (final (Push "/x" args setting σ))) /\
  (linker (client σ) = nilLinker ->
     Push "/x" args setting σ = Panic σ /\
     returned (Push "/x" args setting σ) = None).
Proof.
  split.
  - intros T L l e Hl Hfail.
    destruct (cut_query_path "/x") as (p & Hp & _).
    specialize (Hfail p). destruct (Select l p) as [addr rerr] eqn:Hsel.
    simpl in Hfail. subst rerr.
    rewrite Push_unfold.
    erewrite getCliSession_select_error by eassumption. simpl.
    repeat split; read_trace; reflexivity.
  - intros Hnil. rewrite Push_unfold, getCliSession_nil_linker by assumption.
    split; reflexivity.
Qed.

(** ** Frame *)

Lemma client_frame_refl (c : Client) : client_frame c c.
Proof. unfold client_frame. repeat split; auto. Qed.

Lemma client_frame_store (c : Client) (addr : string) (s : CliSession) :
  cliSessPool c !! addr = None -> client_frame c (pool_Store addr s c).
Proof.
  intros Hnone. unfold client_frame. simpl. repeat split; try reflexivity.
  right. now exists addr, s.
Qed.

Lemma getCliSession_frame (uri : string) (σ : State) :
  client_frame (client σ) (client (final (getCliSession uri σ))).
Proof.
  destruct (getCliSession_case uri σ); simpl;
    auto using client_frame_refl, client_frame_store.
Qed.

(** [getCliSession] leaves the pool as it was unless it resolved to an
    address the pool did not have. *)
Lemma getCliSession_pool_kept (uri p : string) (σ : State)
    (T : Type) (L : Linker T) (l : T) :
  linker (client σ) = linkerOf l ->
  cut_query uri = Some p ->
  (Select l p).2 <> None \/ is_Some (cliSessPool (client σ) !! (Select l p).1) ->
  client (final (getCliSession uri σ)) = client σ.
Proof.
  intros Hl Hp Hcase.
  destruct (Select l p) as [addr [e|]] eqn:Hsel; simpl in Hcase.
  - erewrite getCliSession_select_error by eassumption. reflexivity.
  - destruct Hcase as [Hne|[s Hs]]; [congruence|].
    erewrite getCliSession_hit by eassumption. reflexivity.
Qed.

Lemma dispatch_client (uri : string) (args : Args) (reply : Reply)
    (done : option Chan) (setting : list PacketSetting) (σ : State) :
  client (final (Pull uri args reply setting σ))
    = client (final (getCliSession uri σ)) /\
  client (final (AsyncPull uri args reply done setting σ))
    = client (final (getCliSession uri σ)) /\
  client (final (Push uri args setting σ))
    = client (final (getCliSession uri σ)).
Proof.
  rewrite Pull_unfold, AsyncPull_unfold, Push_unfold.
  destruct (getCliSession uri σ) as [[[s|] [e|]] σ'|σ'|σ']; simpl;
    repeat match goal with
           | |- context [call_session ?e ?f ?s] =>
             let H := fresh in
             destruct (call_session_final e f s) as (H & _ & _);
             rewrite H; clear H
           | |- context [do_send ?d ?c ?s] =>
             let H := fresh in
             destruct (do_send_final d c s) as (H & _ & _ & _);
             rewrite H; clear H
           end; auto.
Qed.

(** C9: [Pull], [AsyncPull] and [Push], however they end, leave [peer],
    [linker], [protoFunc], [sessMaxQuota] and [sessMaxIdleDuration] as they
    were; the pool is unchanged or has gained exactly one entry, at an
    address it did not hold; and it is unchanged when resolution fails or
    the resolved address is already in the pool. *)
Theorem C9_dispatch_frame (uri : string) (args : Args) (reply : Reply)
    (done : option Chan) (setting : list PacketSetting) (σ : State) :
  (client_frame (client σ) (client (final (Pull uri args reply setting σ))) /\
   client_frame (client σ)
     (client (final (AsyncPull uri args reply done setting σ))) /\
   client_frame (client σ) (client (final (Push uri args setting σ)))) /\
  (forall p T (L : Linker T) (l : T),
     linker (client σ) = linkerOf l ->
     cut_query uri = Some p ->
     (Select l p).2 <> None \/
       is_Some (cliSessPool (client σ) !! (Select l p).1) ->
     cliSessPool (client (final (Pull uri args reply setting σ)))
       = cliSessPool (client σ) /\
     cliSessPool (client (final (AsyncPull uri args reply done setting σ)))
       = cliSessPool (client σ) /\
     cliSessPool (client (final (Push uri args setting σ)))
       = cliSessPool (client σ)).
Proof.
  destruct (dispatch_client uri args reply done setting σ) as (-> & -> & ->).
  split.
  - repeat split; apply getCliSession_frame.
  - intros p T L l Hl Hp Hcase.
    rewrite (getCliSession_pool_kept uri p σ T L l) by assumption.
    repeat split; reflexivity.
Qed.

(** ** Session construction *)

Lemma NewClient_started (cfg : CliConfig) (plugin : list Plugin) (c : Client) :
  NewClient cfg plugin = Started c ->
  linker c = nilLinker /\ protoFunc c = DefaultProtoFunc /\
  cliSessPool c = ∅ /\
  sessMaxQuota c = SessMaxQuota (check cfg).1 /\
  sessMaxIdleDuration c = SessMaxIdleDuration (check cfg).1.
Proof.
  unfold NewClient. destruct (check cfg) as [cfg' err] eqn:Hc.
  assert (err = None) as -> by (unfold check in Hc; congruence).
  simpl.
  destruct ((0 <? Z.of_nat (String.length (TlsCertFile cfg'))) &&
            (0 <? Z.of_nat (String.length (TlsKeyFile cfg')))).
  - destruct (SetTlsConfigFromFile _ _ _) as [p1 [e|]]; [discriminate|].
    intros [= <-]. simpl. auto.
  - intros [= <-]. simpl. auto.
Qed.

(** C7: when [getCliSession] resolves to an address the pool does not
    hold, the one session it constructs is built from the client's [peer],
    the resolved address, the client's [sessMaxQuota] and the client's
    [sessMaxIdleDuration], in that order; and for a client made by
    [NewClient] these two are the quota and idle duration of the
    configuration after [check] has normalized it. *)
Theorem C7_session_constructor_arguments (uri p : string) (σ : State)
    (T : Type) (L : Linker T) (l : T) (addr : string) :
  linker (client σ) = linkerOf l ->
  cut_query uri = Some p ->
  Select l p = (addr, None) ->
  cliSessPool (client σ) !! addr = None ->
  (exists s σ',
     getCliSession uri σ = Ret (Some s, None) σ' /\
     sess_peer s = peer (client σ) /\
     sess_addr s = addr /\
     sess_maxQuota s = sessMaxQuota (client σ) /\
     sess_maxIdleDuration s = sessMaxIdleDuration (client σ) /\
     trace σ' = (trace σ ++
                 [EvSelect p; EvLoad addr;
                  EvNew (peer (client σ)) addr (sessMaxQuota (client σ))
                        (sessMaxIdleDuration (client σ)) s;
                  EvStore addr s])%list /\
     created (trace σ') = (created (trace σ) ++ [s])%list /\
     cliSessPool (client σ') !! addr = Some s) /\
  (forall cfg plugin c,
     NewClient cfg plugin = Started c ->
     sessMaxQuota c = SessMaxQuota (check cfg).1 /\
     sessMaxIdleDuration c = SessMaxIdleDuration (check cfg).1 /\
     forall lk, peer (SetLinker c lk) = peer c /\
                sessMaxQuota (SetLinker c lk) = sessMaxQuota c /\
                sessMaxIdleDuration (SetLinker c lk) = sessMaxIdleDuration c).
Proof.
  intros Hl Hp Hsel Hpool. split.
  - eexists _, _. split.
    + eapply getCliSession_miss; eassumption.
    + simpl. repeat split; try reflexivity.
      * read_trace. reflexivity.
      * apply lookup_insert_eq.
  - intros cfg plugin c Hc.
    destruct (NewClient_started cfg plugin c Hc) as (_ & _ & _ & Hq & Hd).
    repeat split; assumption.
Qed.

(** ** Configuration *)

Lemma check_fields (cfg : CliConfig) :
  SessMaxQuota (check cfg).1
    = (if SessMaxQuota cfg <=? 0 then 100 else SessMaxQuota cfg) /\
  SessMaxIdleDuration (check cfg).1
    = (if SessMaxIdleDuration cfg <=? 0 then 3 * Minute
       else SessMaxIdleDuration cfg).
Proof.
  unfold check. simpl.
  destruct (SessMaxQuota cfg <=? 0); simpl;
    destruct (SessMaxIdleDuration cfg <=? 0); simpl; auto.
Qed.

(** C5: [check], and so [NewClient], replaces a [SessMaxQuota] that is
    [<= 0] by exactly 100 and a [SessMaxIdleDuration] that is [<= 0] by
    exactly 3 minutes (180000000000 ns), and keeps positive values as they
    are. [NewClient] ends fatally only at the TLS loader, and returns a
    client whenever no TLS files are configured. *)
Theorem C5_config_defaulting (cfg : CliConfig) (plugin : list Plugin) :
  let q := if SessMaxQuota cfg <=? 0 then 100 else SessMaxQuota cfg in
  let d := if SessMaxIdleDuration cfg <=? 0 then 3 * Minute
           else SessMaxIdleDuration cfg in
  3 * Minute = 180000000000 /\
  SessMaxQuota (check cfg).1 = q /\
  SessMaxIdleDuration (check cfg).1 = d /\
  match NewClient cfg plugin with
  | Started c => sessMaxQuota c = q /\ sessMaxIdleDuration c = d
  | Fatal site _ => site = FatalTls
  end /\
  (TlsCertFile cfg = ""%string \/ TlsKeyFile cfg = ""%string ->
   exists c, NewClient cfg plugin = Started c /\
             sessMaxQuota c = q /\ sessMaxIdleDuration c = d).
Proof.
  intros q d. destruct (check_fields cfg) as [Hq Hd].
  split; [reflexivity|]. split; [exact Hq|]. split; [exact Hd|].
  assert (Hmatch : match NewClient cfg plugin with
                   | Started c => sessMaxQuota c = q /\ sessMaxIdleDuration c = d
                   | Fatal site _ => site = FatalTls
                   end).
  { destruct (NewClient cfg plugin) as [c|site err] eqn:Hn.
    - apply NewClient_started in Hn as (_ & _ & _ & Hq' & Hd').
      subst q d. split; etransitivity; eassumption.
    - unfold NewClient in Hn. destruct (check cfg) as [cfg' [e|]] eqn:Hc.
      + unfold check in Hc. discriminate.
      + destruct (_ && _) in Hn; [|discriminate].
        destruct (SetTlsConfigFromFile _ _ _) as [p1 [e|]] in Hn;
          [|discriminate]. now injection Hn. }
  split; [exact Hmatch|].
  intros Hfiles.
  destruct (NewClient cfg plugin) as [c|site err] eqn:Hn; [now exists c|].
  exfalso. unfold NewClient in Hn.
  destruct (check cfg) as [cfg' [e|]] eqn:Hc; [unfold check in Hc; discriminate|].
  assert (Hcert : TlsCertFile cfg' = TlsCertFile cfg /\
                  TlsKeyFile cfg' = TlsKeyFile cfg).
  { unfold check in Hc. injection Hc as <-.
    destruct (SessMaxQuota cfg <=? 0); simpl;
      destruct (_ <=? 0); simpl; auto. }
  destruct Hcert as [Hcert Hkey]. rewrite Hcert, Hkey in Hn.
  destruct Hfiles as [H|H]; rewrite H in Hn; simpl in Hn;
    rewrite ?andb_false_r in Hn; discriminate.
Qed.

(** C10: [check] returns a nil error for every configuration and changes
    nothing but [SessMaxQuota] and [SessMaxIdleDuration]; [NewClient] never
    ends at the fatal call that follows [check]. *)
Theorem C10_check_never_fails (cfg : CliConfig) (plugin : list Plugin) :
  (check cfg).2 = None /\
  check cfg =
    (set_SessMaxIdleDuration
       (set_SessMaxQuota cfg (SessMaxQuota (check cfg).1))
       (SessMaxIdleDuration (check cfg).1), None) /\
  (forall e, NewClient cfg plugin <> Fatal FatalCheck e).
Proof.
  split; [reflexivity|]. split.
  - unfold check. destruct cfg. simpl.
    destruct (_ <=? 0); simpl; destruct (_ <=? 0); reflexivity.
  - intros e Hn.
    unfold NewClient in Hn. destruct (check cfg) as [cfg' [e'|]] eqn:Hc.
    + unfold check in Hc. discriminate.
    + destruct (_ && _) in Hn; [|discriminate].
      destruct (SetTlsConfigFromFile _ _ _) as [p1 [e'|]] in Hn; discriminate.
Qed.

(** ** The static linker *)

(** C6: the static linker made with address [A] answers [A] with a nil
    error for every path, also when called through the client's [linker]
    field. *)
Theorem C6_static_linker_constant (A path : string) (c : Client)
    (σ : State) :
  Select {| srvAddr := A |} path = (A, None) /\
  linker_Select path (set_client (SetLinker c (NewStaticLinker A)) σ)
    = Ret (A, None)
          (log (EvSelect path)
               (set_client (SetLinker c (NewStaticLinker A)) σ)).
Proof. split; reflexivity. Qed.

(** ** One session per address: alone, and under a race *)

(** Calls made one after the other share the session: once an address is
    in the pool, a later call resolving to it returns the stored session
    and constructs nothing. *)
Lemma sequential_calls_share_session (uri1 uri2 p1 p2 : string) (σ : State)
    (T : Type) (L : Linker T) (l : T) (addr : string) :
  linker (client σ) = linkerOf l ->
  cut_query uri1 = Some p1 -> Select l p1 = (addr, None) ->
  cut_query uri2 = Some p2 -> Select l p2 = (addr, None) ->
  exists s,
    returned (getCliSession uri1 σ) = Some (Some s, None) /\
    returned (getCliSession uri2 (final (getCliSession uri1 σ)))
      = Some (Some s, None) /\
    created (trace (final (getCliSession uri2 (final (getCliSession uri1 σ)))))
      = created (trace (final (getCliSession uri1 σ))).
Proof.
  intros Hl Hp1 Hs1 Hp2 Hs2.
  destruct (cliSessPool (client σ) !! addr) as [s|] eqn:Hpool.
  - exists s. erewrite (getCliSession_hit uri1) by eassumption. simpl.
    erewrite (getCliSession_hit uri2) by eassumption. simpl.
    repeat split. read_trace. reflexivity.
  - exists (fresh_session σ addr).
    erewrite (getCliSession_miss uri1) by eassumption. simpl.
    erewrite (getCliSession_hit uri2 p2 _ T L l addr (fresh_session σ addr));
      [| assumption | assumption | assumption | apply lookup_insert_eq].
    simpl. repeat split. read_trace. reflexivity.
Qed.

Lemma step_entry (uri p : string) (σ : State)
    (T : Type) (L : Linker T) (l : T) (addr : string) :
  linker (client σ) = linkerOf l ->
  cut_query uri = Some p ->
  Select l p = (addr, None) ->
  step (AtEntry uri) σ = (AtLoad addr, log (EvSelect p) σ).
Proof.
  intros Hl Hp Hsel. simpl.
  unfold mbind, M_bind, do_cut_query, linker_Select.
  now rewrite Hp, Hl, Hsel.
Qed.

Lemma step_load_miss (addr : string) (σ : State) :
  cliSessPool (client σ) !! addr = None ->
  step (AtLoad addr) σ = (AtNew addr, log (EvLoad addr) σ).
Proof. intros H. simpl. now rewrite H. Qed.

Lemma run_cons (i : nat) (sched : list nat) (ts : list Frame) (σ : State)
    (f : Frame) :
  ts !! i = Some f ->
  run (i :: sched) ts σ =
  run sched (<[i := (step f σ).1]> ts) (step f σ).2.
Proof.
  intros H. cbn [run]. rewrite H. now destruct (step f σ).
Qed.

(** C1, where the code departs from it: two callers resolving to the same
    address, neither in the pool yet, scheduled turn by turn. Both find the
    pool empty at their [Load], both construct a session, both [Store]:
    two sessions are created, each caller returns its own, and the pool
    keeps the one stored last. The caller that stores second neither
    discards its session nor returns the stored one. *)
Theorem C1_racing_callers_build_two_sessions (uri A : string) (σ : State) :
  linker (client σ) = NewStaticLinker A ->
  cliSessPool (client σ) !! A = None ->
  let r := run [0; 1; 0; 1; 0; 1; 0; 1]%nat [AtEntry uri; AtEntry uri] σ in
  let s0 := fresh_session σ A in
  let s1 := {| sess_id := S (next_sess σ); sess_peer := peer (client σ);
               sess_addr := A; sess_maxQuota := sessMaxQuota (client σ);
               sess_maxIdleDuration := sessMaxIdleDuration (client σ) |} in
  r.1 = [Returned (Some s0) None; Returned (Some s1) None] /\
  s0 <> s1 /\
  created (trace r.2) = (created (trace σ) ++ [s0; s1])%list /\
  cliSessPool (client r.2) !! A = Some s1.
Proof.
  intros Hl Hpool r s0 s1.
  destruct (cut_query_path uri) as (p & Hp & _).
  assert (Hrun : r =
    ([Returned (Some s0) None; Returned (Some s1) None],
     {| client := pool_Store A s1 (pool_Store A s0 (client σ));
        net := net σ;
        next_sess := S (S (next_sess σ));
        trace := (trace σ ++
                  [EvSelect p; EvSelect p; EvLoad A; EvLoad A;
                   EvNew (peer (client σ)) A (sessMaxQuota (client σ))
                         (sessMaxIdleDuration (client σ)) s0;
                   EvNew (peer (client σ)) A (sessMaxQuota (client σ))
                         (sessMaxIdleDuration (client σ)) s1;
                   EvStore A s0; EvStore A s1])%list |})).
  { subst r.
    rewrite (run_cons 0 _ _ _ (AtEntry uri)) by reflexivity.
    rewrite (step_entry uri p σ staticLinker _ {| srvAddr := A |} A Hl Hp eq_refl).
    cbn [fst snd].
    rewrite (run_cons 1 _ _ _ (AtEntry uri)) by reflexivity.
    rewrite (step_entry uri p (log (EvSelect p) σ) staticLinker _
               {| srvAddr := A |} A Hl Hp eq_refl).
    cbn [fst snd].
    rewrite (run_cons 0 _ _ _ (AtLoad A)) by reflexivity.
    rewrite (step_load_miss A) by exact Hpool.
    cbn [fst snd].
    rewrite (run_cons 1 _ _ _ (AtLoad A)) by reflexivity.
    rewrite (step_load_miss A) by exact Hpool.
    simpl. unfold log, set_client. simpl.
    repeat rewrite <- app_assoc. reflexivity. }
  rewrite Hrun. simpl. split; [reflexivity|]. split.
  - subst s0 s1. unfold fresh_session. intros Heq.
    apply (f_equal sess_id) in Heq. simpl in Heq. lia.
  - split; [read_trace; reflexivity | apply lookup_insert_eq].
Qed.

End Facts.

(** * The properties at concrete inputs *)

(** C2 as stated fails: with a resolver that has no route, [AsyncPull] on
    an unbuffered channel nobody receives from leaves the caller blocked in
    the send, and delivers nothing. *)
Lemma C2_async_pull_blocks_on_unbuffered_channel :
  let σ := demo_state (linkerOf (mkRouteLinker [])) in
  Select (mkRouteLinker []) "/x" = (""%string, Some NoRoute) /\
  AsyncPull "/x" "args" "reply" (Some unbuffered_chan) [] σ
    = Blocked (log (EvSelect "/x") σ) /\
  sent (trace (final (AsyncPull "/x" "args" "reply" (Some unbuffered_chan)
                                [] σ))) = [].
Proof. repeat split. Qed.

(** C3 as stated fails: on the client [NewClient] returns, which has no
    resolver, [Push "/x"] panics instead of returning an error. *)
Lemma C3_push_on_fresh_client_panics :
  NewClient demo_cfg [] = Started demo_client /\
  client (demo_state nilLinker) = demo_client /\
  linker demo_client = nilLinker /\
  Push "/x" "" [] (demo_state nilLinker) = Panic (demo_state nilLinker) /\
  returned (Push "/x" "" [] (demo_state nilLinker)) = None.
Proof. repeat split. Qed.

Lemma C1_witness :
  let σ := demo_state (NewStaticLinker "127.0.0.1:9090") in
  let r := run [0; 1; 0; 1; 0; 1; 0; 1]%nat
               [AtEntry "/echo"; AtEntry "/echo"] σ in
  (linker (client σ) = NewStaticLinker "127.0.0.1:9090" /\
   cliSessPool (client σ) !! "127.0.0.1:9090" = None) /\
  length (created (trace r.2)) = 2%nat /\
  (exists s0 s1, r.1 = [Returned (Some s0) None; Returned (Some s1) None] /\
                 s0 <> s1 /\
                 cliSessPool (client r.2) !! "127.0.0.1:9090" = Some s1).
Proof.
  intros σ r.
  assert (H1 : linker (client σ) = NewStaticLinker "127.0.0.1:9090")
    by reflexivity.
  assert (H2 : cliSessPool (client σ) !! "127.0.0.1:9090" = None)
    by reflexivity.
  destruct (C1_racing_callers_build_two_sessions "/echo" "127.0.0.1:9090"
              σ H1 H2) as (Hr & Hne & Hcr & Hpool).
  split; [split; assumption|]. split.
  - subst r. rewrite Hcr. reflexivity.
  - eexists _, _. split; [exact Hr|]. split; [exact Hne | exact Hpool].
Defined.

Lemma C2_witness :
  let σ := demo_state (linkerOf (mkRouteLinker [])) in
  (linker (client σ) = linkerOf (mkRouteLinker []) /\
   cut_query "/x?id=7" = Some "/x"%string /\
   Select (mkRouteLinker []) "/x" = (""%string, Some NoRoute)) /\
  returned (Pull "/x?id=7" "args" "reply" [] σ)
    = Some (FakePullCmd (peer demo_client) "/x?id=7" "args" "reply"
                        NoRoute []) /\
  Push "/x?id=7" "args" [] σ = Ret (Some NoRoute) (log (EvSelect "/x") σ) /\
  length (sent (trace (final (AsyncPull "/x?id=7" "args" "reply"
                                        (Some buffered_chan) [] σ)))) = 1%nat /\
  cliSessPool (client (final (AsyncPull "/x?id=7" "args" "reply"
                                        (Some buffered_chan) [] σ))) = ∅.
Proof.
  intros σ.
  assert (H1 : linker (client σ) = linkerOf (mkRouteLinker [])) by reflexivity.
  assert (H2 : cut_query "/x?id=7" = Some "/x"%string) by reflexivity.
  assert (H3 : Select (mkRouteLinker []) "/x" = (""%string, Some NoRoute))
    by reflexivity.
  destruct (C2_resolution_failure_short_circuit (TR := demoTransport) (SS := demoSessions)
              (SO := demoSessionOps)
              "/x?id=7" "/x" "args" "reply"
              (Some buffered_chan) [] σ _ _ (mkRouteLinker []) "" NoRoute
              H1 H2 H3) as ((HP & _) & HU & _ & Hroom & _ & _ & HA).
  split; [repeat split; assumption|].
  split; [rewrite HP; reflexivity|]. split; [exact HU|].
  destruct Hroom as [_ Hsent].
  { exists buffered_chan. repeat split. right. simpl. lia. }
  split.
  - rewrite Hsent. reflexivity.
  - destruct HA as (Hc & _). rewrite Hc. reflexivity.
Defined.

Lemma C3_witness :
  let σ := demo_state (linkerOf (mkRouteLinker [])) in
  (linker (client σ) = linkerOf (mkRouteLinker []) /\
   (forall path, (Select (mkRouteLinker []) path).2 = Some NoRoute) /\
   linker (client (demo_state nilLinker)) = nilLinker) /\
  returned (Push "/x" "" [] σ) = Some (Some NoRoute) /\
  cliSessPool (client (final (Push "/x" "" [] σ))) = ∅ /\
  Push "/x" "" [] (demo_state nilLinker) = Panic (demo_state nilLinker).
Proof.
  intros σ.
  assert (H1 : linker (client σ) = linkerOf (mkRouteLinker [])) by reflexivity.
  assert (H2 : forall path, (Select (mkRouteLinker []) path).2 = Some NoRoute)
    by (intros path; reflexivity).
  assert (H3 : linker (client (demo_state nilLinker)) = nilLinker)
    by reflexivity.
  destruct (C3_push_without_route (TR := demoTransport) (SS := demoSessions)
              (SO := demoSessionOps)
              "" [] σ) as [Hfail _].
  destruct (Hfail _ _ (mkRouteLinker []) NoRoute H1 H2) as (Hret & Hpool & _).
  destruct (C3_push_without_route (TR := demoTransport) (SS := demoSessions)
              (SO := demoSessionOps)
              "" [] (demo_state nilLinker)) as [_ Hnil].
  destruct (Hnil H3) as [Hpanic _].
  split; [repeat split; assumption|].
  split; [exact Hret|]. split; [rewrite Hpool; reflexivity | exact Hpanic].
Defined.

Lemma C4_witness :
  let σ := demo_state (NewStaticLinker "127.0.0.1:9090") in
  linker (client σ) = linkerOf {| srvAddr := "127.0.0.1:9090" |} /\
  selected (trace (final (Pull "/svc/method?x=1" "args" "reply" [] σ)))
    = ["/svc/method"%string] /\
  selected (trace (final (Push "/svc/method" "args" [] σ)))
    = ["/svc/method"%string].
Proof.
  intros σ.
  assert (H1 : linker (client σ) = linkerOf {| srvAddr := "127.0.0.1:9090" |})
    by reflexivity.
  split; [exact H1|]. split.
  - destruct (C4_select_gets_path_portion (TR := demoTransport) (SS := demoSessions)
              (SO := demoSessionOps)
              "/svc/method?x=1" "args" "reply"
                None [] σ _ _ _ H1) as [(p & Hp & _ & _ & _ & HP & _) _].
    rewrite HP. injection Hp as <-. reflexivity.
  - destruct (C4_select_gets_path_portion (TR := demoTransport) (SS := demoSessions)
              (SO := demoSessionOps)
              "/svc/method" "args" "reply"
                None [] σ _ _ _ H1) as [(p & Hp & _ & _ & _ & _ & _ & HU) _].
    rewrite HU. injection Hp as <-. reflexivity.
Defined.

Lemma C5_witness :
  (TlsCertFile demo_cfg = ""%string \/ TlsKeyFile demo_cfg = ""%string) /\
  SessMaxQuota (check demo_cfg).1 = 100 /\
  SessMaxIdleDuration (check demo_cfg).1 = 180000000000 /\
  exists c, NewClient demo_cfg [] = Started c /\
            sessMaxQuota c = 100 /\ sessMaxIdleDuration c = 180000000000.
Proof.
  assert (H1 : TlsCertFile demo_cfg = ""%string \/
               TlsKeyFile demo_cfg = ""%string) by (left; reflexivity).
  destruct (C5_config_defaulting (TR := demoTransport) demo_cfg [])
    as (_ & Hq & Hd & _ & Hnew).
  split; [exact H1|]. split; [exact Hq|]. split; [exact Hd|].
  exact (Hnew H1).
Defined.

Lemma C7_witness :
  let σ := demo_state (NewStaticLinker "127.0.0.1:9090") in
  (linker (client σ) = linkerOf {| srvAddr := "127.0.0.1:9090" |} /\
   cut_query "/echo?v=2" = Some "/echo"%string /\
   Select {| srvAddr := "127.0.0.1:9090" |} "/echo"
     = ("127.0.0.1:9090"%string, None) /\
   cliSessPool (client σ) !! "127.0.0.1:9090" = None /\
   NewClient demo_cfg [] = Started demo_client) /\
  (exists s σ',
     getCliSession "/echo?v=2" σ = Ret (Some s, None) σ' /\
     sess_peer s = peer demo_client /\
     sess_addr s = "127.0.0.1:9090"%string /\
     sess_maxQuota s = 100 /\
     sess_maxIdleDuration s = 180000000000) /\
  sessMaxQuota demo_client = SessMaxQuota (check demo_cfg).1.
Proof.
  intros σ.
  assert (H1 : linker (client σ) = linkerOf {| srvAddr := "127.0.0.1:9090" |})
    by reflexivity.
  assert (H2 : cut_query "/echo?v=2" = Some "/echo"%string) by reflexivity.
  assert (H3 : Select {| srvAddr := "127.0.0.1:9090" |} "/echo"
               = ("127.0.0.1:9090"%string, None)) by reflexivity.
  assert (H4 : cliSessPool (client σ) !! "127.0.0.1:9090" = None)
    by reflexivity.
  assert (H5 : NewClient demo_cfg [] = Started demo_client) by reflexivity.
  destruct (C7_session_constructor_arguments (TR := demoTransport)
              (SS := demoSessions)
              "/echo?v=2" "/echo" σ _ _ _ "127.0.0.1:9090" H1 H2 H3 H4)
    as [(s & σ' & Hg & Hp & Ha & Hq & Hd & _) Hnew].
  split; [repeat split; assumption|]. split.
  - exists s, σ'. repeat split; assumption.
  - destruct (Hnew demo_cfg [] demo_client H5) as (Hq' & _). exact Hq'.
Defined.

Lemma C8_witness :
  let σ := demo_state (linkerOf (mkRouteLinker [("/y", "10.0.0.1:80")])) in
  (In "?"%char (list_ascii_of_string "/x?id=7") /\
   linker (client σ) = linkerOf (mkRouteLinker [("/y", "10.0.0.1:80")]) /\
   cut_query "/x?id=7" = Some "/x"%string /\
   Select (mkRouteLinker [("/y", "10.0.0.1:80")]) "/x"
     = (""%string, Some NoRoute)) /\
  returned (Pull "/x?id=7" "args" "reply" [] σ)
    = Some (FakePullCmd (peer demo_client) "/x?id=7" "args" "reply"
                        NoRoute []) /\
  selected (trace (final (Pull "/x?id=7" "args" "reply" [] σ)))
    = ["/x"%string].
Proof.
  intros σ.
  assert (H0 : In "?"%char (list_ascii_of_string "/x?id=7"))
    by (simpl; tauto).
  assert (H1 : linker (client σ)
               = linkerOf (mkRouteLinker [("/y", "10.0.0.1:80")]))
    by reflexivity.
  assert (H2 : cut_query "/x?id=7" = Some "/x"%string) by reflexivity.
  assert (H3 : Select (mkRouteLinker [("/y", "10.0.0.1:80")]) "/x"
               = (""%string, Some NoRoute)) by reflexivity.
  destruct (C8_fake_result_keeps_whole_uri (TR := demoTransport)
              (SS := demoSessions) (SO := demoSessionOps)
              "/x?id=7" "/x" "args" "reply" None [] σ _ _ _ "" NoRoute
              H0 H1 H2 H3) as (_ & Hsel & Hret & _).
  split; [repeat split; assumption|]. split; [exact Hret | exact Hsel].
Defined.

Lemma C9_witness :
  let σ := demo_state (linkerOf (mkRouteLinker [("/y", "10.0.0.1:80")])) in
  (linker (client σ) = linkerOf (mkRouteLinker [("/y", "10.0.0.1:80")]) /\
   cut_query "/x" = Some "/x"%string /\
   ((Select (mkRouteLinker [("/y", "10.0.0.1:80")]) "/x").2 <> None \/
    is_Some (cliSessPool (client σ) !!
               (Select (mkRouteLinker [("/y", "10.0.0.1:80")]) "/x").1))) /\
  cliSessPool (client (final (Pull "/x" "args" "reply" [] σ))) = ∅ /\
  client_frame (client σ) (client (final (Pull "/y" "args" "reply" [] σ))) /\
  size (cliSessPool (client (final (Pull "/y" "args" "reply" [] σ)))) = 1%nat.
Proof.
  intros σ.
  assert (H1 : linker (client σ)
               = linkerOf (mkRouteLinker [("/y", "10.0.0.1:80")]))
    by reflexivity.
  assert (H2 : cut_query "/x" = Some "/x"%string) by reflexivity.
  assert (H3 : (Select (mkRouteLinker [("/y", "10.0.0.1:80")]) "/x").2 <> None \/
               is_Some (cliSessPool (client σ) !!
                 (Select (mkRouteLinker [("/y", "10.0.0.1:80")]) "/x").1))
    by (left; discriminate).
  destruct (C9_dispatch_frame (TR := demoTransport) (SS := demoSessions)
              (SO := demoSessionOps) "/x" "args" "reply" None [] σ)
    as [_ Hkept].
  destruct (Hkept "/x"%string _ _ _ H1 H2 H3) as (HP & _ & _).
  destruct (C9_dispatch_frame (TR := demoTransport) (SS := demoSessions)
              (SO := demoSessionOps) "/y" "args" "reply" None [] σ)
    as [(Hframe & _ & _) _].
  split; [repeat split; assumption|].
  split; [rewrite HP; reflexivity|]. split; [exact Hframe|].
  vm_compute. reflexivity.
Defined.

Lemma C10_witness :
  (check demo_cfg).2 = None /\
  NewClient demo_cfg [] <> Fatal FatalCheck (mkError "invalid configuration").
Proof.
  destruct (C10_check_never_fails (TR := demoTransport) demo_cfg [])
    as (Hnil & _ & Hfatal).
  split; [exact Hnil | apply Hfatal].
Defined.

(** * Further properties of the code *)

(** ** Configuration: check, Reload, NewClient *)

Lemma check_keeps_transport_fields (cfg : CliConfig) :
  peerConfig (check cfg).1 = peerConfig cfg /\
  Heartbeat (check cfg).1 = Heartbeat cfg /\
  TlsCertFile (check cfg).1 = TlsCertFile cfg /\
  TlsKeyFile (check cfg).1 = TlsKeyFile cfg.
Proof.
  unfold check. simpl.
  destruct (SessMaxQuota cfg <=? 0); simpl;
    destruct (_ <=? 0); simpl; auto.
Qed.

(** After [check] both pool limits are positive, and a second [check]
    changes nothing. *)
Theorem check_positive_and_idempotent (cfg : CliConfig) :
  0 < SessMaxQuota (check cfg).1 /\
  0 < SessMaxIdleDuration (check cfg).1 /\
  check (check cfg).1 = check cfg.
Proof.
  destruct (check_fields cfg) as [Hq Hd].
  assert (Hq0 : 0 < SessMaxQuota (check cfg).1).
  { rewrite Hq. destruct (Z.leb_spec (SessMaxQuota cfg) 0); lia. }
  assert (Hd0 : 0 < SessMaxIdleDuration (check cfg).1).
  { rewrite Hd. unfold Duration in *.
    destruct (Z.leb_spec (SessMaxIdleDuration cfg) 0); [reflexivity | lia]. }
  split; [exact Hq0|]. split; [exact Hd0|].
  remember (check cfg).1 as c eqn:Hc.
  assert (Hcc : check cfg = (c, None)) by (subst c; reflexivity).
  rewrite Hcc. unfold check.
  destruct (Z.leb_spec (SessMaxQuota c) 0) as [Hle|_]; [lia|].
  unfold Duration in *.
  destruct (Z.leb_spec (SessMaxIdleDuration c) 0) as [Hle|_]; [lia|].
  reflexivity.
Qed.

(** [Reload] reports exactly the error of [bind]. When [bind] fails the
    configuration is returned as [bind] left it, without the defaulting
    pass; when it succeeds the result is [check] of what [bind] produced,
    so both pool limits are positive. *)
Theorem Reload_error_is_bind_error (cfg : CliConfig)
    (bind : CliConfig -> CliConfig * option error) :
  (Reload cfg bind).2 = (bind cfg).2 /\
  (forall e, (bind cfg).2 = Some e -> Reload cfg bind = bind cfg) /\
  ((bind cfg).2 = None ->
   Reload cfg bind = check (bind cfg).1 /\
   0 < SessMaxQuota (Reload cfg bind).1 /\
   0 < SessMaxIdleDuration (Reload cfg bind).1).
Proof.
  unfold Reload. destruct (bind cfg) as [c1 [e|]]; simpl.
  - split; [reflexivity|]. split; [|discriminate].
    intros e' [= <-]. reflexivity.
  - split; [reflexivity|]. split; [discriminate|]. intros _.
    destruct (check_positive_and_idempotent c1) as (Hq & Hd & _).
    split; [reflexivity|]. split; assumption.
Qed.

Section MoreFacts.
Context {TR : Transport} {SS : Sessions} {SO : SessionOps}.

Lemma nonempty_length (s : string) :
  (0 <? Z.of_nat (String.length s)) = true <-> s <> ""%string.
Proof.
  destruct s; simpl; split; try congruence; try discriminate.
  intros _. reflexivity.
Qed.

(** [NewClient] ends in [tp.Fatalf] exactly when both TLS file names are
    non-empty and loading them fails, and the error it reports is the
    loader's. The peer it loads them into was made from the caller's
    configuration and plugins, the heartbeat ping last. *)
Theorem NewClient_fatal_iff (cfg : CliConfig) (plugin : list Plugin)
    (site : FatalSite) (err : error) :
  NewClient cfg plugin = Fatal site err <->
  site = FatalTls /\
  TlsCertFile cfg <> ""%string /\ TlsKeyFile cfg <> ""%string /\
  (SetTlsConfigFromFile
     (NewPeer (peerConfig cfg)
              (if Heartbeat cfg >? 0
               then (plugin ++ [NewPing (Heartbeat cfg)])%list else plugin))
     (TlsCertFile cfg) (TlsKeyFile cfg)).2 = Some err.
Proof.
  unfold NewClient.
  destruct (check_keeps_transport_fields cfg) as (Hpc & Hhb & Hcert & Hkey).
  destruct (check cfg) as [cfg' e] eqn:Hc.
  assert (e = None) as -> by (unfold check in Hc; congruence).
  simpl in Hpc, Hhb, Hcert, Hkey. rewrite Hpc, Hhb, Hcert, Hkey.
  destruct (0 <? Z.of_nat (String.length (TlsCertFile cfg))) eqn:H1;
    destruct (0 <? Z.of_nat (String.length (TlsKeyFile cfg))) eqn:H2; simpl.
  - apply nonempty_length in H1, H2.
    destruct (SetTlsConfigFromFile _ _ _) as [p1 [e|]]; simpl; split.
    + intros [= <- <-]. auto.
    + intros (-> & _ & _ & [= ->]). reflexivity.
    + discriminate.
    + intros (_ & _ & _ & H). discriminate.
  - split; [discriminate|]. intros (_ & _ & Hk & _).
    apply nonempty_length in Hk. congruence.
  - split; [discriminate|]. intros (_ & Hk & _ & _).
    apply nonempty_length in Hk. congruence.
  - split; [discriminate|]. intros (_ & Hk & _ & _).
    apply nonempty_length in Hk. congruence.
Qed.

(** The client [NewClient] returns: no resolver yet, an empty pool, the
    default framing, and a peer made from the caller's configuration as
    given (the defaulting of the pool limits does not reach it) with the
    caller's plugins in order and the heartbeat ping appended exactly when
    [Heartbeat > 0]; TLS material is loaded into that peer only when both
    file names are given. *)
Theorem NewClient_started_shape (cfg : CliConfig) (plugin : list Plugin)
    (c : Client) :
  NewClient cfg plugin = Started c ->
  let p0 := NewPeer (peerConfig cfg)
                    (if Heartbeat cfg >? 0
                     then (plugin ++ [NewPing (Heartbeat cfg)])%list
                     else plugin) in
  linker c = nilLinker /\
  cliSessPool c = ∅ /\
  protoFunc c = DefaultProtoFunc /\
  peer c = match TlsCertFile cfg, TlsKeyFile cfg with
           | String _ _, String _ _ =>
             (SetTlsConfigFromFile p0 (TlsCertFile cfg) (TlsKeyFile cfg)).1
           | _, _ => p0
           end.
Proof.
  intros Hn p0.
  destruct (NewClient_started cfg plugin c Hn) as (Hl & Hpf & Hpool & _ & _).
  split; [exact Hl|]. split; [exact Hpool|]. split; [exact Hpf|].
  revert Hn. unfold NewClient.
  destruct (check_keeps_transport_fields cfg) as (Hpc & Hhb & Hcert & Hkey).
  destruct (check cfg) as [cfg' e] eqn:Hc.
  assert (e = None) as -> by (unfold check in Hc; congruence).
  simpl in Hpc, Hhb, Hcert, Hkey. rewrite Hpc, Hhb, Hcert, Hkey.
  fold p0.
  destruct (TlsCertFile cfg) as [|a cert]; simpl;
    [intros [= <-]; reflexivity|].
  destruct (TlsKeyFile cfg) as [|b key]; simpl;
    [intros [= <-]; reflexivity|].
  destruct (SetTlsConfigFromFile _ _ _) as [p1 [e|]]; [discriminate|].
  intros [= <-]. reflexivity.
Qed.

(** ** Cutting the query *)

Lemma app_query_inj (p p' q q' : string) :
  ~ In "?"%char (list_ascii_of_string p) ->
  ~ In "?"%char (list_ascii_of_string p') ->
  (p ++ String "?" q)%string = (p' ++ String "?" q')%string ->
  p = p'.
Proof.
  revert p'. induction p as [|a p IH]; intros [|a' p'] Hp Hp' Heq;
    simpl in *.
  - reflexivity.
  - injection Heq as <- _. tauto.
  - injection Heq as -> _. tauto.
  - injection Heq as <- Heq. f_equal. apply IH with (p' := p'); tauto.
Qed.

Lemma in_app_query (p q : string) :
  In "?"%char (list_ascii_of_string (p ++ String "?" q)).
Proof. induction p as [|a p IH]; simpl; tauto. Qed.

(** Putting any query behind a path and cutting it gives the path back;
    what [cut_query] returns is left alone by a second cut, and is never
    longer than the uri. *)
Theorem cut_query_round_trip (p q uri : string) :
  (~ In "?"%char (list_ascii_of_string p) ->
   cut_query (p ++ String "?" q) = Some p) /\
  (cut_query uri = Some p ->
   cut_query p = Some p /\ (String.length p <= String.length uri)%nat).
Proof.
  split.
  - intros Hp.
    destruct (cut_query_path (p ++ String "?" q)) as (p' & Hcut & Hnin & Hsh).
    rewrite Hcut. f_equal. destruct Hsh as [Heq|[rest Heq]].
    + exfalso. apply Hnin. rewrite <- Heq. apply in_app_query.
    + symmetry. eapply app_query_inj; eassumption.
  - intros Hcut.
    destruct (cut_query_path uri) as (p' & Hcut' & Hnin & Hsh).
    assert (p' = p) as -> by congruence. split.
    + now apply cut_query_plain.
    + destruct Hsh as [->|[rest ->]]; [lia|].
      rewrite length_string_app. lia.
Qed.

(** Routing does not see the query: [getCliSession] on a uri is
    [getCliSession] on its path portion, so two uris with the same path
    portion get the same answer in the same state. *)
Theorem getCliSession_ignores_query (uri1 uri2 p : string) (σ : State) :
  cut_query uri1 = Some p ->
  cut_query uri2 = Some p ->
  getCliSession uri1 σ = getCliSession p σ /\
  getCliSession uri1 σ = getCliSession uri2 σ.
Proof.
  intros H1 H2.
  assert (Hp : cut_query p = Some p)
    by (apply (cut_query_round_trip p ""%string uri1); assumption).
  assert (Hcut : forall u, cut_query u = Some p ->
                           getCliSession u σ = getCliSession p σ).
  { intros u Hu. unfold getCliSession, mbind, M_bind, do_cut_query.
    now rewrite Hu, Hp. }
  split; [now apply Hcut|]. rewrite (Hcut uri1), (Hcut uri2); auto.
Qed.


(** ** Successful resolution: delegation *)

Ltac read_events :=
  simpl;
  repeat first
    [ rewrite trace_log
    | rewrite selected_app | rewrite created_app
    | rewrite sent_app | rewrite touched_app
    | rewrite <- app_assoc ];
  simpl; rewrite ?app_nil_r.

Lemma call_session_value {A : Type} (e : Event) (f : Net -> Outcome Net A)
    (σ : State) :
  returned (call_session e f σ) = value_of (f (net σ)) /\
  net (final (call_session e f σ)) = state_of (f (net σ)).
Proof. unfold call_session. simpl. destruct (f (net σ)); auto. Qed.

(** When the path portion resolves to [addr], the three methods call the
    session pooled for [addr] (constructed on the spot if the pool had
    none) with the uri as the caller gave it, query included, and with the
    caller's arguments; the caller gets the session's answer, and the
    session's effect on the network is the only one. The client itself
    sends nothing on the completion channel. *)
Theorem dispatch_delegates_to_pooled_session (uri p : string) (args : Args)
    (reply : Reply) (done : option Chan) (setting : list PacketSetting)
    (σ : State) (T : Type) (L : Linker T) (l : T) (addr : string) :
  linker (client σ) = linkerOf l ->
  cut_query uri = Some p ->
  Select l p = (addr, None) ->
  exists s,
    returned (getCliSession uri σ) = Some (Some s, None) /\
    cliSessPool (client (final (getCliSession uri σ))) !! addr = Some s /\
    (forall s0, cliSessPool (client σ) !! addr = Some s0 -> s = s0) /\
    (returned (Pull uri args reply setting σ)
       = value_of (sess_Pull s uri args reply setting (net σ)) /\
     net (final (Pull uri args reply setting σ))
       = state_of (sess_Pull s uri args reply setting (net σ))) /\
    (returned (AsyncPull uri args reply done setting σ)
       = value_of (sess_AsyncPull s uri args reply done setting (net σ)) /\
     net (final (AsyncPull uri args reply done setting σ))
       = state_of (sess_AsyncPull s uri args reply done setting (net σ)) /\
     sent (trace (final (AsyncPull uri args reply done setting σ)))
       = sent (trace σ)) /\
    (returned (Push uri args setting σ)
       = value_of (sess_Push s uri args setting (net σ)) /\
     net (final (Push uri args setting σ))
       = state_of (sess_Push s uri args setting (net σ))) /\
    touched (trace (final (Pull uri args reply setting σ)))
      = (touched (trace σ) ++ [s])%list.
Proof.
  intros Hl Hp Hsel.
  rewrite Pull_unfold, AsyncPull_unfold, Push_unfold.
  destruct (cliSessPool (client σ) !! addr) as [s|] eqn:Hpool.
  - exists s. erewrite getCliSession_hit by eassumption. simpl.
    split; [reflexivity|]. split; [exact Hpool|].
    split; [intros s0 [= <-]; reflexivity|].
    repeat match goal with
           | |- context [call_session ?e ?f ?st] =>
             let H1 := fresh in let H2 := fresh in let H3 := fresh in
             destruct (call_session_value e f st) as (H1 & H2);
             destruct (call_session_final e f st) as (_ & _ & H3);
             progress (rewrite ?H1, ?H2, ?H3); clear H1 H2 H3
           end.
    read_events. repeat split; reflexivity.
  - exists (fresh_session σ addr).
    erewrite getCliSession_miss by eassumption. simpl.
    split; [reflexivity|]. split; [apply lookup_insert_eq|].
    split; [discriminate|].
    repeat match goal with
           | |- context [call_session ?e ?f ?st] =>
             let H1 := fresh in let H2 := fresh in let H3 := fresh in
             destruct (call_session_value e f st) as (H1 & H2);
             destruct (call_session_final e f st) as (_ & _ & H3);
             progress (rewrite ?H1, ?H2, ?H3); clear H1 H2 H3
           end.
    read_events. repeat split; reflexivity.
Qed.

(** ** The pool only grows *)



(** ** The pool is keyed by the address each session was built for *)

Lemma session_wf_later (σ σ' : State) (addr : string) (s : CliSession) :
  peer (client σ') = peer (client σ) ->
  sessMaxQuota (client σ') = sessMaxQuota (client σ) ->
  sessMaxIdleDuration (client σ') = sessMaxIdleDuration (client σ) ->
  (next_sess σ <= next_sess σ')%nat ->
  session_wf σ addr s -> session_wf σ' addr s.
Proof.
  intros Hp Hq Hd Hn (Ha & Hsp & Hsq & Hsd & Hid).
  unfold session_wf. rewrite Hp, Hq, Hd. repeat split; try assumption. lia.
Qed.

Lemma pool_wf_same (σ σ' : State) :
  client σ' = client σ -> next_sess σ' = next_sess σ ->
  pool_wf σ -> pool_wf σ'.
Proof.
  intros Hc Hn [Hwf Hinj]. unfold pool_wf, session_wf in *.
  rewrite Hc, Hn. split; assumption.
Qed.

Lemma pool_wf_store (σ σ' : State) (addr : string) :
  cliSessPool (client σ) !! addr = None ->
  client σ' = pool_Store addr (fresh_session σ addr) (client σ) ->
  next_sess σ' = S (next_sess σ) ->
  pool_wf σ -> pool_wf σ'.
Proof.
  intros Hnone Hc Hn [Hwf Hinj]. unfold pool_wf, session_wf.
  rewrite Hc, Hn. split.
  - intros a s. simpl. rewrite lookup_insert.
    destruct (decide (addr = a)) as [<-|Hne].
    + intros [= <-]. simpl. repeat split; lia.
    + intros Hs. apply Hwf in Hs.
      destruct Hs as (Ha & Hsp & Hsq & Hsd & Hid).
      repeat split; try assumption. lia.
  - intros a1 a2 s1 s2. simpl. rewrite !lookup_insert.
    destruct (decide (addr = a1)) as [<-|Hne1];
      destruct (decide (addr = a2)) as [<-|Hne2].
    + reflexivity.
    + intros [= <-] Hs2 Hid. apply Hwf in Hs2.
      destruct Hs2 as (_ & _ & _ & _ & Hlt). simpl in Hid. lia.
    + intros Hs1 [= <-] Hid. apply Hwf in Hs1.
      destruct Hs1 as (_ & _ & _ & _ & Hlt). simpl in Hid. lia.
    + apply Hinj.
Qed.

Lemma getCliSession_pool_wf (uri : string) (σ : State) :
  pool_wf σ -> pool_wf (final (getCliSession uri σ)).
Proof.
  intros Hwf.
  destruct (getCliSession_case uri σ) as
    [Hl | p T L l addr e Hl _ _ | p T L l addr s Hl _ _ _
        | p T L l addr Hl _ _ Hnone]; simpl.
  - exact Hwf.
  - eapply pool_wf_same; [| |exact Hwf]; reflexivity.
  - eapply pool_wf_same; [| |exact Hwf]; reflexivity.
  - eapply (pool_wf_store σ _ addr Hnone); [reflexivity|reflexivity|exact Hwf].
Qed.

Lemma dispatch_next_sess (uri : string) (args : Args) (reply : Reply)
    (done : option Chan) (setting : list PacketSetting) (σ : State) :
  next_sess (final (Pull uri args reply setting σ))
    = next_sess (final (getCliSession uri σ)) /\
  next_sess (final (AsyncPull uri args reply done setting σ))
    = next_sess (final (getCliSession uri σ)) /\
  next_sess (final (Push uri args setting σ))
    = next_sess (final (getCliSession uri σ)).
Proof.
  rewrite Pull_unfold, AsyncPull_unfold, Push_unfold.
  destruct (getCliSession uri σ) as [[[s|] [e|]] σ'|σ'|σ']; simpl;
    repeat match goal with
           | |- context [call_session ?e ?f ?s] =>
             let H := fresh in
             destruct (call_session_final e f s) as (_ & H & _);
             rewrite H; clear H
           | |- context [do_send ?d ?c ?s] =>
             let H := fresh in
             destruct (do_send_final d c s) as (_ & H & _ & _);
             rewrite H; clear H
           end; auto.
Qed.

(** The pool of a client made by [NewClient] is well keyed, and every
    dispatch call keeps it so: each pooled session is stored under the
    address it was constructed for, was built from this client's peer and
    limits, and no two addresses share a session handle. *)
Theorem pool_stays_well_keyed (uri : string) (args : Args) (reply : Reply)
    (done : option Chan) (setting : list PacketSetting) (σ : State) :
  (forall cfg plugin c lk n k tr,
     NewClient cfg plugin = Started c ->
     pool_wf {| client := SetLinker c lk; net := n; next_sess := k;
                trace := tr |}) /\
  (pool_wf σ ->
   pool_wf (final (Pull uri args reply setting σ)) /\
   pool_wf (final (AsyncPull uri args reply done setting σ)) /\
   pool_wf (final (Push uri args setting σ))).
Proof.
  split.
  - intros cfg plugin c lk n k tr Hn.
    apply NewClient_started in Hn as (_ & _ & Hpool & _ & _).
    unfold pool_wf. simpl. rewrite Hpool.
    split; intros *; rewrite lookup_empty; discriminate.
  - intros Hwf.
    destruct (dispatch_client uri args reply done setting σ) as (H1 & H2 & H3).
    destruct (dispatch_next_sess uri args reply done setting σ)
      as (N1 & N2 & N3).
    pose proof (getCliSession_pool_wf uri σ Hwf) as Hg.
    split; [|split]; eapply pool_wf_same; eauto.
Qed.

(** ** Calls made one after the other *)

Lemma call_all_hit (uris : list string) (σ : State)
    (T : Type) (L : Linker T) (l : T) (addr : string) (s : CliSession) :
  linker (client σ) = linkerOf l ->
  (forall u, In u uris ->
     exists p, cut_query u = Some p /\ Select l p = (addr, None)) ->
  cliSessPool (client σ) !! addr = Some s ->
  Forall (fun r => r = Some (Some s, None)) (call_all uris σ).1 /\
  client (call_all uris σ).2 = client σ /\
  next_sess (call_all uris σ).2 = next_sess σ /\
  created (trace (call_all uris σ).2) = created (trace σ).
Proof.
  revert σ. induction uris as [|u us IH]; intros σ Hl Hres Hpool.
  - simpl. auto.
  - destruct (Hres u) as (p & Hp & Hsel); [now left|].
    cbn [call_all].
    rewrite (getCliSession_hit u p σ T L l addr s Hl Hp Hsel Hpool).
    cbn [final returned].
    destruct (IH (log (EvLoad addr) (log (EvSelect p) σ)))
      as (Hall & Hc & Hn & Hcr);
      [exact Hl | intros u' Hu'; apply Hres; now right | exact Hpool |].
    destruct (call_all us _) as [rs σ']. simpl in *.
    split; [constructor; [reflexivity|exact Hall]|].
    split; [exact Hc|]. split; [exact Hn|].
    rewrite Hcr. read_events. reflexivity.
Qed.

Lemma call_all_length (uris : list string) (σ : State) :
  length (call_all uris σ).1 = length uris.
Proof.
  revert σ. induction uris as [|u us IH]; intros σ; [reflexivity|].
  cbn [call_all]. specialize (IH (final (getCliSession u σ))).
  destruct (call_all us _). simpl in *. now rewrite IH.
Qed.

(** Any number of calls made one after the other whose path portions all
    resolve to an address the pool does not hold yet: the first one
    constructs the session, every call returns that one session, exactly
    one session is constructed in all, and the pool gains the one entry. *)
Theorem sequential_calls_construct_once (u : string) (us : list string)
    (σ : State) (T : Type) (L : Linker T) (l : T) (addr : string) :
  linker (client σ) = linkerOf l ->
  (forall u', In u' (u :: us) ->
     exists p, cut_query u' = Some p /\ Select l p = (addr, None)) ->
  cliSessPool (client σ) !! addr = None ->
  let s := fresh_session σ addr in
  let r := call_all (u :: us) σ in
  Forall (fun o => o = Some (Some s, None)) r.1 /\
  length r.1 = S (length us) /\
  created (trace r.2) = (created (trace σ) ++ [s])%list /\
  cliSessPool (client r.2) = <[addr := s]> (cliSessPool (client σ)) /\
  next_sess r.2 = S (next_sess σ).
Proof.
  intros Hl Hres Hpool s r. subst r.
  destruct (Hres u) as (p & Hp & Hsel); [now left|].
  cbn [call_all].
  rewrite (getCliSession_miss u p σ T L l addr Hl Hp Hsel Hpool).
  cbn [final returned]. fold s.
  match goal with
  | |- context [call_all us ?st] =>
    destruct (call_all_hit us st T L l addr s) as (Hall & Hc & Hn & Hcr);
      [exact Hl | intros u' Hu'; apply Hres; now right
       | apply lookup_insert_eq |];
    pose proof (call_all_length us st) as Hlen
  end.
  destruct (call_all us _) as [rs σ']. simpl in *.
  split; [constructor; [reflexivity|exact Hall]|].
  split; [now rewrite Hlen|].
  split; [rewrite Hcr; read_events; reflexivity|].
  split; [now rewrite Hc|exact Hn].
Qed.

(** With the static linker every uri resolves, and to the one address:
    starting from an empty pool, after any calls made one after the other
    the pool holds exactly the one session for that address, whatever the
    uris were. *)
Theorem static_linker_single_session (A u : string) (us : list string)
    (σ : State) :
  linker (client σ) = NewStaticLinker A ->
  cliSessPool (client σ) = ∅ ->
  let r := call_all (u :: us) σ in
  cliSessPool (client r.2) = {[ A := fresh_session σ A ]} /\
  Forall (fun o => o = Some (Some (fresh_session σ A), None)) r.1 /\
  created (trace r.2) = (created (trace σ) ++ [fresh_session σ A])%list.
Proof.
  intros Hl Hpool r. subst r.
  destruct (sequential_calls_construct_once u us σ staticLinker _
              {| srvAddr := A |} A Hl) as (Hall & _ & Hcr & Hp & _).
  - intros u' _. destruct (cut_query_path u') as (p & Hp & _).
    exists p. split; [exact Hp|reflexivity].
  - rewrite Hpool. apply lookup_empty.
  - rewrite Hp, Hpool, insert_empty. auto.
Qed.

(** ** The setters *)

Lemma getCliSession_with_protoFunc (pf : ProtoFunc) (uri : string)
    (σ : State) :
  getCliSession uri (with_protoFunc pf σ)
    = map_state (with_protoFunc pf) (getCliSession uri σ).
Proof.
  unfold getCliSession, mbind, M_bind, do_cut_query, linker_Select, do_Load.
  destruct (cut_query uri) as [p|]; [|reflexivity]. simpl.
  destruct (linker (client σ)) as [|T L l]; [reflexivity|].
  destruct (Select l p) as [addr [e|]]; [reflexivity|]. simpl.
  destruct (cliSessPool (client σ) !! addr) as [s|]; reflexivity.
Qed.

Lemma call_session_with_protoFunc {A : Type} (pf : ProtoFunc) (e : Event)
    (f : Net -> Outcome Net A) (σ : State) :
  call_session e f (with_protoFunc pf σ)
    = map_state (with_protoFunc pf) (call_session e f σ).
Proof. unfold call_session. simpl. destruct (f (net σ)); reflexivity. Qed.

(** The framing strategy a client was given by [SetProtoFunc] plays no
    part in dispatch: with any [protoFunc] the three methods return the
    same value, make the same calls and leave the same state, which
    differs only in carrying that [protoFunc]. In particular the sessions
    constructed are the same ones. *)
Theorem dispatch_ignores_protoFunc (pf : ProtoFunc) (uri : string)
    (args : Args) (reply : Reply) (done : option Chan)
    (setting : list PacketSetting) (σ : State) :
  Pull uri args reply setting (with_protoFunc pf σ)
    = map_state (with_protoFunc pf) (Pull uri args reply setting σ) /\
  AsyncPull uri args reply done setting (with_protoFunc pf σ)
    = map_state (with_protoFunc pf)
                (AsyncPull uri args reply done setting σ) /\
  Push uri args setting (with_protoFunc pf σ)
    = map_state (with_protoFunc pf) (Push uri args setting σ) /\
  trace (final (Pull uri args reply setting (with_protoFunc pf σ)))
    = trace (final (Pull uri args reply setting σ)).
Proof.
  assert (HP : Pull uri args reply setting (with_protoFunc pf σ)
               = map_state (with_protoFunc pf)
                           (Pull uri args reply setting σ)).
  { rewrite !Pull_unfold, getCliSession_with_protoFunc.
    destruct (getCliSession uri σ) as [[[s|] [e|]] σ'|σ'|σ']; simpl;
      try reflexivity.
    apply call_session_with_protoFunc. }
  split; [exact HP|]. split; [|split].
  - rewrite !AsyncPull_unfold, getCliSession_with_protoFunc.
    destruct (getCliSession uri σ) as [[[s|] [e|]] σ'|σ'|σ']; simpl;
      try reflexivity;
      try (unfold do_send; simpl; destruct (chansend _ _); reflexivity).
    apply call_session_with_protoFunc.
  - rewrite !Push_unfold, getCliSession_with_protoFunc.
    destruct (getCliSession uri σ) as [[[s|] [e|]] σ'|σ'|σ']; simpl;
      try reflexivity.
    apply call_session_with_protoFunc.
  - rewrite HP. destruct (Pull uri args reply setting σ); reflexivity.
Qed.

(** Replacing the resolver with [SetLinker] keeps the pool: the next call
    asks the new resolver, and when that answers an address pooled before
    the swap, the session pooled then is returned and none is
    constructed. *)
Theorem SetLinker_keeps_pooled_sessions (uri p : string) (σ : State)
    (T : Type) (L : Linker T) (l : T) (addr : string) (s : CliSession) :
  cut_query uri = Some p ->
  Select l p = (addr, None) ->
  cliSessPool (client σ) !! addr = Some s ->
  let σ1 := with_linker (linkerOf l) σ in
  returned (getCliSession uri σ1) = Some (Some s, None) /\
  selected (trace (final (getCliSession uri σ1)))
    = (selected (trace σ) ++ [p])%list /\
  created (trace (final (getCliSession uri σ1))) = created (trace σ) /\
  cliSessPool (client (final (getCliSession uri σ1)))
    = cliSessPool (client σ).
Proof.
  intros Hp Hsel Hpool σ1.
  rewrite (getCliSession_hit uri p σ1 T L l addr s eq_refl Hp Hsel Hpool).
  subst σ1. read_events. repeat split; reflexivity.
Qed.

(** ** Under any interleaving *)

Lemma NoDup_map_eq {A B : Type} (f : A -> B) (l : list A) (x y : A) :
  NoDup (map f l) -> In x l -> In y l -> f x = f y -> x = y.
Proof.
  induction l as [|a l IH]; simpl; [tauto|].
  intros Hnd [->|Hx] [->|Hy] Hf.
  - reflexivity.
  - exfalso. apply NoDup_cons in Hnd as [Hnin _]. apply Hnin.
    rewrite list_elem_of_In, Hf. now apply in_map.
  - exfalso. apply NoDup_cons in Hnd as [Hnin _]. apply Hnin.
    rewrite list_elem_of_In, <- Hf. now apply in_map.
  - apply NoDup_cons in Hnd as [_ Hnd]. auto.
Qed.

Lemma race_inv_pool_wf (ts : list Frame) (σ : State) :
  race_inv ts σ -> pool_wf σ.
Proof.
  intros ([Hnd Hwf] & Hpool & _). split.
  - intros addr s Hs. destruct (Hpool addr s Hs) as [<- Hin]. now apply Hwf.
  - intros a1 a2 s1 s2 H1 H2 Hid.
    destruct (Hpool a1 s1 H1) as [<- Hin1].
    destruct (Hpool a2 s2 H2) as [<- Hin2].
    now rewrite (NoDup_map_eq sess_id _ s1 s2 Hnd Hin1 Hin2 Hid).
Qed.

(** A state that differs only in events that construct nothing. *)
Lemma handles_wf_log (e : Event) (σ : State) :
  created [e] = [] -> handles_wf σ -> handles_wf (log e σ).
Proof.
  intros He [Hnd Hwf]. unfold handles_wf, session_wf in *. simpl.
  rewrite created_app, He, app_nil_r. split; assumption.
Qed.

Lemma step_keeps_inv (f : Frame) (σ : State) :
  handles_wf σ ->
  (forall addr s, cliSessPool (client σ) !! addr = Some s ->
                  sess_addr s = addr /\ In s (created (trace σ))) ->
  frame_known σ f ->
  handles_wf (step f σ).2 /\
  (forall addr s, cliSessPool (client (step f σ).2) !! addr = Some s ->
                  sess_addr s = addr /\ In s (created (trace (step f σ).2))) /\
  frame_known (step f σ).2 (step f σ).1 /\
  (forall g, frame_known σ g -> frame_known (step f σ).2 g).
Proof.
  intros Hh Hpool Hf.
  destruct f as [uri|addr|addr|addr s|s e|].
  - (* entry: cut the query and ask the resolver *)
    destruct (cut_query_path uri) as (p & Hp & _). simpl.
    unfold mbind, M_bind, do_cut_query, linker_Select. rewrite Hp.
    destruct (linker (client σ)) as [|T L l]; [simpl; auto|].
    assert (Hsame : created (trace (log (EvSelect p) σ)) = created (trace σ))
      by (read_events; reflexivity).
    assert (Hmono : forall g, frame_known σ g ->
                              frame_known (log (EvSelect p) σ) g).
    { intros [| | |a s0|[s0|] e0|]; simpl; try tauto;
        rewrite created_app, app_nil_r; tauto. }
    destruct (Select l p) as [addr [e|]]; simpl;
      (split; [now apply handles_wf_log|]);
      (split; [intros a s0 Hs; rewrite created_app; simpl;
               rewrite app_nil_r; now apply Hpool|]);
      (split; [exact I|exact Hmono]).
  - (* load *)
    simpl.
    assert (Hmono : forall g, frame_known σ g ->
                              frame_known (log (EvLoad addr) σ) g).
    { intros [| | |a s0|[s0|] e0|]; simpl; try tauto;
        rewrite created_app, app_nil_r; tauto. }
    destruct (cliSessPool (client σ) !! addr) as [s|] eqn:Hs; simpl;
      (split; [now apply handles_wf_log|]);
      (split; [intros a s0 Hs0; rewrite created_app; simpl;
               rewrite app_nil_r; now apply Hpool|]);
      (split; [|exact Hmono]); [|exact I].
    rewrite created_app, app_nil_r. now apply (Hpool addr s).
  - (* construct *)
    unfold handles_wf in *. simpl. destruct Hh as [Hnd Hwf].
    set (s := {| sess_id := next_sess σ; sess_peer := peer (client σ);
                 sess_addr := addr;
                 sess_maxQuota := sessMaxQuota (client σ);
                 sess_maxIdleDuration := sessMaxIdleDuration (client σ) |}).
    cbn [trace client next_sess]. rewrite !created_app. simpl created.
    split; [split|split; [|split]].
    + rewrite map_app. simpl. apply NoDup_app. split; [exact Hnd|]. split.
      * intros k Hk [Heq|[]]%list_elem_of_In. subst k.
        apply list_elem_of_In, in_map_iff in Hk as (s0 & Hid & Hin).
        apply Hwf in Hin as (_ & _ & _ & _ & Hlt). lia.
      * apply NoDup_singleton.
    + intros s0 [Hin|[<-|[]]]%in_app_iff.
      * apply Hwf in Hin as (Ha & Hp & Hq & Hd & Hlt).
        unfold session_wf. simpl. repeat split; try assumption. lia.
      * unfold session_wf. simpl. repeat split. lia.
    + intros a s0 Hs0. destruct (Hpool a s0 Hs0) as [Ha Hin].
      split; [exact Ha|]. apply in_app_iff. now left.
    + split; [reflexivity|]. apply in_app_iff. right. now left.
    + intros [| | |a s0|[s0|] e0|]; simpl; try tauto;
        rewrite created_app, in_app_iff; tauto.
  - (* store *)
    simpl in *. destruct Hf as [Ha Hin].
    assert (Hsame : forall s0, In s0 (created (trace σ ++ [EvStore addr s]))
                               <-> In s0 (created (trace σ))).
    { intros s0. rewrite created_app, app_nil_r. tauto. }
    split; [|split; [|split]].
    + destruct Hh as [Hnd Hwf]. unfold handles_wf, session_wf in *. simpl.
      rewrite created_app, app_nil_r. split; assumption.
    + intros a s0. rewrite lookup_insert.
      destruct (decide (addr = a)) as [<-|Hne].
      * intros [= <-]. split; [exact Ha|]. now apply Hsame.
      * intros Hs0. destruct (Hpool a s0 Hs0). split; [assumption|].
        now apply Hsame.
    + now apply Hsame.
    + intros [| | |a s0|[s0|] e0|]; simpl; try tauto;
        rewrite created_app, app_nil_r; tauto.
  - simpl. auto.
  - simpl. auto.
Qed.

Lemma run_keeps_inv (sched : list nat) (ts : list Frame) (σ : State) :
  race_inv ts σ ->
  race_inv (run sched ts σ).1 (run sched ts σ).2 /\
  length (run sched ts σ).1 = length ts.
Proof.
  revert ts σ. induction sched as [|i sched IH]; intros ts σ Hinv.
  - simpl. auto.
  - cbn [run]. destruct (ts !! i) as [f|] eqn:Hi; [|now apply IH].
    destruct Hinv as (Hh & Hpool & Hfr).
    assert (Hf : frame_known σ f).
    { rewrite Forall_forall in Hfr. apply Hfr.
      eapply list_elem_of_lookup_2; eauto. }
    destruct (step_keeps_inv f σ Hh Hpool Hf) as (Hh' & Hpool' & Hf' & Hmono).
    destruct (step f σ) as [f' σ']. simpl in *.
    destruct (IH (<[i := f']> ts) σ') as [Hinv' Hlen].
    + split; [exact Hh'|]. split; [exact Hpool'|].
      apply Forall_insert; [|exact Hf'].
      eapply Forall_impl; [exact Hfr|exact Hmono].
    + split; [exact Hinv'|]. now rewrite Hlen, length_insert.
Qed.

(** Whatever the schedule, callers that start from a client whose pool is
    empty (as [NewClient] leaves it) never put the pool out of order: at
    every point each pooled session is stored under the address it was
    constructed for, from this client's peer and limits, no two addresses
    share a handle, and a session a caller has returned with is one that
    was constructed. The race of C1 can leave two sessions for one
    address alive, but never a session under a wrong address. *)
Theorem any_schedule_keeps_pool_well_keyed (sched : list nat)
    (uris : list string) (σ : State) :
  cliSessPool (client σ) = ∅ ->
  created (trace σ) = [] ->
  let r := run sched (map AtEntry uris) σ in
  pool_wf r.2 /\
  length r.1 = length uris /\
  (forall i s e, r.1 !! i = Some (Returned (Some s) e) ->
                 In s (created (trace r.2)) /\
                 sess_peer s = peer (client r.2)).
Proof.
  intros Hpool Hcr r.
  assert (Hinv : race_inv (map AtEntry uris) σ).
  { split; [|split].
    - unfold handles_wf. rewrite Hcr. split; [constructor|intros s []].
    - intros addr s. rewrite Hpool, lookup_empty. discriminate.
    - apply Forall_forall. intros f Hin.
      apply list_elem_of_In, in_map_iff in Hin as (u & <- & _). exact I. }
  destruct (run_keeps_inv sched _ σ Hinv) as [Hinv' Hlen].
  fold r in Hinv', Hlen.
  split; [eapply race_inv_pool_wf; exact Hinv'|].
  split; [now rewrite Hlen, length_map|].
  intros i s e Hi. destruct Hinv' as ([_ Hwf] & _ & Hfr).
  rewrite Forall_forall in Hfr.
  assert (Hk : frame_known r.2 (Returned (Some s) e)).
  { apply Hfr. eapply list_elem_of_lookup_2; eauto. }
  simpl in Hk. split; [exact Hk|]. now apply Hwf in Hk as (_ & Hp & _).
Qed.

Lemma budget_cons (f : Frame) (ts : list Frame) :
  budget (f :: ts) = (may_create f + budget ts)%nat.
Proof. reflexivity. Qed.

Lemma budget_insert (ts : list Frame) (i : nat) (f f' : Frame) :
  ts !! i = Some f ->
  (budget (<[i := f']> ts) + may_create f = budget ts + may_create f')%nat.
Proof.
  revert i. induction ts as [|g ts IH]; intros [|i] Hi;
    try discriminate Hi.
  - injection Hi as ->.
    change (<[0%nat := f']> (f :: ts)) with (f' :: ts).
    rewrite !budget_cons. lia.
  - change (<[S i := f']> (g :: ts)) with (g :: <[i := f']> ts).
    rewrite !budget_cons. specialize (IH i Hi). lia.
Qed.

Lemma budget_le_length (ts : list Frame) : (budget ts <= length ts)%nat.
Proof.
  induction ts as [|f ts IH]; [reflexivity|].
  rewrite budget_cons. cbn [length]. destruct f; simpl may_create; lia.
Qed.

Lemma step_spends_budget (f : Frame) (σ : State) :
  (length (created (trace (step f σ).2)) + may_create (step f σ).1
   <= length (created (trace σ)) + may_create f)%nat.
Proof.
  destruct f as [uri|addr|addr|addr s|s e|]; simpl.
  - unfold mbind, M_bind, do_cut_query, linker_Select.
    destruct (cut_query uri) as [p|]; simpl; [|lia].
    destruct (linker (client σ)) as [|T L l]; simpl; [lia|].
    destruct (Select l p) as [addr [e|]]; simpl;
      rewrite created_app, app_nil_r; simpl; lia.
  - destruct (cliSessPool (client σ) !! addr); simpl;
      rewrite created_app, app_nil_r; simpl; lia.
  - rewrite created_app, length_app. simpl. lia.
  - rewrite created_app, app_nil_r. lia.
  - lia.
  - lia.
Qed.

(** Whatever the schedule and whatever the callers are doing, sessions are
    constructed only by callers that have not yet passed line 173: the
    number of sessions constructed during a run is at most the number of
    callers. (The race of C1 reaches this bound: two callers, two
    sessions.) *)
Theorem sessions_constructed_at_most_one_per_caller (sched : list nat)
    (ts : list Frame) (σ : State) :
  let r := run sched ts σ in
  (length (created (trace r.2)) + budget r.1
   <= length (created (trace σ)) + budget ts)%nat /\
  (length (created (trace r.2))
   <= length (created (trace σ)) + length ts)%nat.
Proof.
  assert (H : forall sched ts σ,
            (length (created (trace (run sched ts σ).2))
             + budget (run sched ts σ).1
             <= length (created (trace σ)) + budget ts)%nat).
  { clear. intros sched. induction sched as [|i sched IH]; intros ts σ.
    - simpl. lia.
    - cbn [run]. destruct (ts !! i) as [f|] eqn:Hi; [|apply IH].
      pose proof (step_spends_budget f σ) as Hs.
      destruct (step f σ) as [f' σ']. simpl in Hs.
      specialize (IH (<[i := f']> ts) σ').
      pose proof (budget_insert ts i f f' Hi). lia. }
  intros r. split; [apply H|].
  specialize (H sched ts σ). pose proof (budget_le_length ts). fold r in H.
  lia.
Qed.

End MoreFacts.

(** * The further properties at concrete inputs *)

Lemma Reload_witness :
  ((bind_fails demo_cfg).2 = Some (mkError "yaml: cannot read file") /\
   (bind_zero_quota demo_tls_cfg).2 = None) /\
  Reload demo_cfg bind_fails = bind_fails demo_cfg /\
  SessMaxQuota (Reload demo_cfg bind_fails).1 = 0 /\
  SessMaxQuota (Reload demo_tls_cfg bind_zero_quota).1 = 100.
Proof.
  assert (H1 : (bind_fails demo_cfg).2 = Some (mkError "yaml: cannot read file"))
    by reflexivity.
  assert (H2 : (bind_zero_quota demo_tls_cfg).2 = None) by reflexivity.
  destruct (Reload_error_is_bind_error demo_cfg bind_fails) as (_ & Hfail & _).
  destruct (Reload_error_is_bind_error demo_tls_cfg bind_zero_quota)
    as (_ & _ & Hok).
  destruct (Hok H2) as (Heq & _ & _).
  split; [split; assumption|]. split; [exact (Hfail _ H1)|].
  split; [rewrite (Hfail _ H1); reflexivity|].
  rewrite Heq. reflexivity.
Defined.

Lemma NewClient_fatal_witness :
  (TlsCertFile demo_tls_cfg <> ""%string /\
   TlsKeyFile demo_tls_cfg <> ""%string) /\
  NewClient demo_tls_cfg [7]
    = Fatal FatalTls (mkError "open missing.pem: no such file").
Proof.
  assert (H1 : TlsCertFile demo_tls_cfg <> ""%string) by discriminate.
  assert (H2 : TlsKeyFile demo_tls_cfg <> ""%string) by discriminate.
  split; [split; assumption|].
  apply (NewClient_fatal_iff (TR := demoTransport) demo_tls_cfg [7]).
  split; [reflexivity|]. split; [exact H1|]. split; [exact H2|reflexivity].
Defined.

Lemma NewClient_started_witness :
  NewClient demo_cfg [] = Started demo_client /\
  peer demo_client = NewPeer (peerConfig demo_cfg) [] /\
  cliSessPool demo_client = ∅.
Proof.
  assert (H1 : NewClient demo_cfg [] = Started demo_client) by reflexivity.
  split; [exact H1|].
  destruct (NewClient_started_shape (TR := demoTransport) demo_cfg []
              demo_client H1) as (_ & Hpool & _ & Hp).
  split; [exact Hp | exact Hpool].
Defined.

Lemma cut_query_round_trip_witness :
  (~ In "?"%char (list_ascii_of_string "/svc/method") /\
   cut_query "/a?b?c" = Some "/a"%string) /\
  cut_query ("/svc/method" ++ String "?" "x=1&y=?") = Some "/svc/method"%string /\
  cut_query "/a" = Some "/a"%string.
Proof.
  assert (H1 : ~ In "?"%char (list_ascii_of_string "/svc/method")).
  { simpl. intros H. repeat (destruct H as [H|H]; [discriminate H|]).
    exact H. }
  assert (H2 : cut_query "/a?b?c" = Some "/a"%string) by reflexivity.
  split; [split; assumption|].
  destruct (cut_query_round_trip "/svc/method" "x=1&y=?" "/a?b?c")
    as [Happ _].
  destruct (cut_query_round_trip "/a" "" "/a?b?c") as [_ Hidem].
  split; [exact (Happ H1)|]. exact (proj1 (Hidem H2)).
Defined.

Lemma getCliSession_ignores_query_witness :
  let σ := demo_state (linkerOf (mkRouteLinker [("/y", "10.0.0.1:80")])) in
  (cut_query "/y?a=1" = Some "/y"%string /\
   cut_query "/y?b=2&c" = Some "/y"%string) /\
  getCliSession "/y?a=1" σ = getCliSession "/y?b=2&c" σ.
Proof.
  intros σ.
  assert (H1 : cut_query "/y?a=1" = Some "/y"%string) by reflexivity.
  assert (H2 : cut_query "/y?b=2&c" = Some "/y"%string) by reflexivity.
  split; [split; assumption|].
  exact (proj2 (getCliSession_ignores_query (TR := demoTransport)
                  (SS := demoSessions) "/y?a=1" "/y?b=2&c" "/y" σ H1 H2)).
Defined.


Lemma dispatch_delegates_witness :
  let σ := demo_state (NewStaticLinker "127.0.0.1:9090") in
  (linker (client σ) = linkerOf {| srvAddr := "127.0.0.1:9090" |} /\
   cut_query "/echo?v=2" = Some "/echo"%string /\
   Select {| srvAddr := "127.0.0.1:9090" |} "/echo"
     = ("127.0.0.1:9090"%string, None)) /\
  returned (Pull "/echo?v=2" "args" "reply" [] σ)
    = Some (SessionPullCmd "/echo?v=2") /\
  net (final (Pull "/echo?v=2" "args" "reply" [] σ)) = 1%nat /\
  sent (trace (final (AsyncPull "/echo?v=2" "args" "reply"
                                (Some buffered_chan) [] σ))) = [].
Proof.
  intros σ.
  assert (H1 : linker (client σ) = linkerOf {| srvAddr := "127.0.0.1:9090" |})
    by reflexivity.
  assert (H2 : cut_query "/echo?v=2" = Some "/echo"%string) by reflexivity.
  assert (H3 : Select {| srvAddr := "127.0.0.1:9090" |} "/echo"
               = ("127.0.0.1:9090"%string, None)) by reflexivity.
  destruct (dispatch_delegates_to_pooled_session (TR := demoTransport)
              (SS := demoSessions) (SO := demoSessionOps)
              "/echo?v=2" "/echo" "args" "reply" (Some buffered_chan) [] σ
              _ _ _ "127.0.0.1:9090" H1 H2 H3)
    as (s & _ & _ & _ & (HP & HPn) & (_ & _ & HA) & _ & _).
  split; [repeat split; assumption|].
  split; [rewrite HP; reflexivity|]. split; [rewrite HPn; reflexivity|].
  rewrite HA. reflexivity.
Defined.

Lemma pool_stays_well_keyed_witness :
  let σ := demo_state (NewStaticLinker "127.0.0.1:9090") in
  (NewClient demo_cfg [] = Started demo_client /\ pool_wf σ) /\
  pool_wf (final (Pull "/echo" "args" "reply" [] σ)) /\
  size (cliSessPool (client (final (Pull "/echo" "args" "reply" [] σ))))
    = 1%nat.
Proof.
  intros σ.
  assert (H1 : NewClient demo_cfg [] = Started demo_client) by reflexivity.
  destruct (pool_stays_well_keyed (TR := demoTransport) (SS := demoSessions)
              (SO := demoSessionOps) "/echo" "args" "reply" None [] σ)
    as [Hinit Hkeep].
  assert (H2 : pool_wf σ)
    by exact (Hinit demo_cfg [] demo_client
                (NewStaticLinker "127.0.0.1:9090") 0%nat 0%nat [] H1).
  destruct (Hkeep H2) as (HP & _ & _).
  split; [split; assumption|]. split; [exact HP|].
  vm_compute. reflexivity.
Defined.

Lemma sequential_calls_witness :
  let σ := demo_state (linkerOf (mkRouteLinker
                         [("/a", "10.0.0.1:80"); ("/b", "10.0.0.1:80")])) in
  let r := call_all ["/a?x=1"; "/b"; "/a"] σ in
  (linker (client σ) = linkerOf (mkRouteLinker
                         [("/a", "10.0.0.1:80"); ("/b", "10.0.0.1:80")]) /\
   cliSessPool (client σ) !! "10.0.0.1:80" = None) /\
  length (created (trace r.2)) = 1%nat /\
  length r.1 = 3%nat /\
  next_sess r.2 = 1%nat.
Proof.
  intros σ r.
  assert (H1 : linker (client σ) = linkerOf (mkRouteLinker
                 [("/a", "10.0.0.1:80"); ("/b", "10.0.0.1:80")]))
    by reflexivity.
  assert (H2 : cliSessPool (client σ) !! "10.0.0.1:80" = None)
    by reflexivity.
  destruct (sequential_calls_construct_once (TR := demoTransport)
              (SS := demoSessions) "/a?x=1" ["/b"; "/a"] σ _ _ _
              "10.0.0.1:80" H1) as (_ & Hlen & Hcr & _ & Hn).
  - intros u' [<-|[<-|[<-|[]]]].
    + exists "/a"%string. split; reflexivity.
    + exists "/b"%string. split; reflexivity.
    + exists "/a"%string. split; reflexivity.
  - exact H2.
  - split; [split; assumption|]. fold r in Hlen, Hcr, Hn.
    split; [rewrite Hcr; reflexivity|]. split; [exact Hlen|exact Hn].
Defined.

Lemma static_linker_single_session_witness :
  let σ := demo_state (NewStaticLinker "127.0.0.1:9090") in
  let r := call_all ["/echo"; "/other?q"; "no-slash"] σ in
  (linker (client σ) = NewStaticLinker "127.0.0.1:9090" /\
   cliSessPool (client σ) = ∅) /\
  size (cliSessPool (client r.2)) = 1%nat /\
  length (created (trace r.2)) = 1%nat.
Proof.
  intros σ r.
  assert (H1 : linker (client σ) = NewStaticLinker "127.0.0.1:9090")
    by reflexivity.
  assert (H2 : cliSessPool (client σ) = ∅) by reflexivity.
  destruct (static_linker_single_session (TR := demoTransport)
              (SS := demoSessions) "127.0.0.1:9090" "/echo"
              ["/other?q"; "no-slash"] σ H1 H2) as (Hp & _ & Hcr).
  fold r in Hp, Hcr.
  split; [split; assumption|].
  split; [rewrite Hp; apply map_size_singleton | rewrite Hcr; reflexivity].
Defined.

Lemma SetLinker_keeps_pooled_sessions_witness :
  (cut_query "/y?k" = Some "/y"%string /\
   Select (mkRouteLinker [("/y", "127.0.0.1:9090")]) "/y"
     = ("127.0.0.1:9090"%string, None) /\
   cliSessPool (client demo_pooled_state) !! "127.0.0.1:9090"
     = Some (fresh_session (demo_state (NewStaticLinker "127.0.0.1:9090"))
                           "127.0.0.1:9090")) /\
  created (trace (final (getCliSession "/y?k"
            (with_linker (linkerOf (mkRouteLinker [("/y", "127.0.0.1:9090")]))
                         demo_pooled_state))))
    = created (trace demo_pooled_state).
Proof.
  assert (H1 : cut_query "/y?k" = Some "/y"%string) by reflexivity.
  assert (H2 : Select (mkRouteLinker [("/y", "127.0.0.1:9090")]) "/y"
               = ("127.0.0.1:9090"%string, None)) by reflexivity.
  assert (H3 : cliSessPool (client demo_pooled_state) !! "127.0.0.1:9090"
               = Some (fresh_session
                         (demo_state (NewStaticLinker "127.0.0.1:9090"))
                         "127.0.0.1:9090")) by reflexivity.
  destruct (SetLinker_keeps_pooled_sessions (TR := demoTransport)
              (SS := demoSessions) "/y?k" "/y" demo_pooled_state _ _ _
              "127.0.0.1:9090" _ H1 H2 H3) as (_ & _ & Hcr & _).
  split; [repeat split; assumption|exact Hcr].
Defined.

Lemma any_schedule_witness :
  let σ := demo_state (NewStaticLinker "127.0.0.1:9090") in
  let r := run [1; 0; 1; 1; 0; 0; 1; 0; 0]%nat
               (map AtEntry ["/echo"; "/echo?z"]) σ in
  (cliSessPool (client σ) = ∅ /\ created (trace σ) = []) /\
  pool_wf r.2 /\ length r.1 = 2%nat.
Proof.
  intros σ r.
  assert (H1 : cliSessPool (client σ) = ∅) by reflexivity.
  assert (H2 : created (trace σ) = []) by reflexivity.
  destruct (any_schedule_keeps_pool_well_keyed (TR := demoTransport)
              (SS := demoSessions) [1; 0; 1; 1; 0; 0; 1; 0; 0]%nat
              ["/echo"; "/echo?z"] σ H1 H2) as (Hwf & Hlen & _).
  split; [split; assumption|]. split; [exact Hwf|exact Hlen].
Defined.
